(** * artemis-arise: proposal intake and the review-stage state machine

    A shallow embedding of [shared/schema.ts] (the zod schemas and the two
    normalisers) and of the submit and decision handlers of
    [server/routes.ts], followed by the properties of the specification
    that are stated about them.

    Conventions of the embedding
    - a JavaScript [number] is a binary64 float ([PrimFloat.float]);
    - a JavaScript string is a [string] of code units below 256;
    - an optional property is an [option]; [undefined] is [None];
    - [a || b] on strings is [str_or], [a ?? b] is [default b a];
    - a request body is a [Json] value, a JSON object is the list of its
      properties and a property is read with [get];
    - [await storage.f(...)] is a node of the program tree [Prog], which is
      run against any implementation of the storage interface. *)

From Stdlib Require Import String Ascii List Lia.
From Stdlib Require Import Floats DecimalNat DecimalString.
From stdpp Require Import option list strings gmap.

Import ListNotations.
Local Open Scope string_scope.
Set Warnings "-register-all".

(** ** JavaScript values *)

Module Js.

(** Truthiness of a string: every string but the empty one. *)
Definition truthy (s : string) : bool :=
  match s with
  | EmptyString => false
  | String _ _ => true
  end.

(** [a || b] where [a] is an optional string and [b] a string. *)
Definition str_or (a : option string) (b : string) : string :=
  match a with
  | Some s => if truthy s then s else b
  | None => b
  end.

(** Truthiness of an optional boolean, as in [m => m.isLeader]. *)
Definition flag (b : option bool) : bool :=
  match b with
  | Some true => true
  | _ => false
  end.

(** White space and line terminators among the code units below 256:
    TAB, LF, VT, FF, CR, SP and NBSP. *)
Definition is_white (c : ascii) : bool :=
  match nat_of_ascii c with
  | 9 | 10 | 11 | 12 | 13 | 32 | 160 => true
  | _ => false
  end.

Fixpoint trimStart (s : string) : string :=
  match s with
  | EmptyString => EmptyString
  | String c r => if is_white c then trimStart r else s
  end.

Fixpoint trimEnd (s : string) : string :=
  match s with
  | EmptyString => EmptyString
  | String c r =>
      match trimEnd r with
      | EmptyString => if is_white c then EmptyString else String c EmptyString
      | t => String c t
      end
  end.

(** [String.prototype.trim]. *)
Definition trim (s : string) : string := trimEnd (trimStart s).

(** [`${n}`] for an array index plus one: its decimal digits. *)
Definition nat_to_string (n : nat) : string :=
  NilEmpty.string_of_uint (Nat.to_uint n).

(** JSON values, the shape of a parsed request body. An object is the list
    of its own properties, each name once. *)
Inductive Json : Type :=
| JNull
| JBool (b : bool)
| JNum (n : float)
| JStr (s : string)
| JArr (items : list Json)
| JObj (props : list (string * Json)).

(** Own property lookup in a property list. *)
Fixpoint assoc (k : string) (props : list (string * Json)) : option Json :=
  match props with
  | [] => None
  | (k', v) :: rest => if String.eqb k k' then Some v else assoc k rest
  end.

(** [v?.k] and [v.k]: the property of an object, [undefined] otherwise
    (the schemas and handlers read no property an array has). *)
Definition get (k : string) (v : Json) : option Json :=
  match v with
  | JObj props => assoc k props
  | _ => None
  end.

(** [x && typeof x === "object"]: objects and arrays; [null] is falsy. *)
Definition truthy_object (v : Json) : bool :=
  match v with
  | JObj _ | JArr _ => true
  | _ => false
  end.

(** [!!v] for a property that may be absent. *)
Definition truthy_json (v : option Json) : bool :=
  match v with
  | None | Some JNull => false
  | Some (JBool b) => b
  | Some (JNum n) => negb (PrimFloat.eqb n 0%float || PrimFloat.is_nan n)
  | Some (JStr s) => truthy s
  | Some (JArr _) | Some (JObj _) => true
  end.

(** [a ?? b] on properties: [a] unless it is [undefined] or [null]. *)
Definition coalesce (a b : option Json) : option Json :=
  match a with
  | None | Some JNull => b
  | Some _ => a
  end.

(** [Object.keys] of a value. *)
Definition keys (v : Json) : list string :=
  match v with
  | JObj props => map fst props
  | JArr items => imap (fun i _ => nat_to_string i) items
  | JStr s => imap (fun i _ => nat_to_string i) (list_ascii_of_string s)
  | _ => []
  end.

End Js.

(** ** The zod combinators the schemas use

    A parser returns [None] when zod reports an issue; the list of issues
    itself is not modelled. *)

Module Zod.
Import Js.

Definition parser (A : Type) : Type := Json -> option A.

(** [.optional()]: an absent property is accepted as [undefined]. *)
Definition optional {A} (p : parser A) (v : option Json) : option (option A) :=
  match v with
  | None => Some None
  | Some j => option_map Some (p j)
  end.

(** A required property. *)
Definition required {A} (p : parser A) (v : option Json) : option A :=
  match v with
  | None => None
  | Some j => p j
  end.

Definition string_ : parser string :=
  fun v => match v with JStr s => Some s | _ => None end.

(** [z.number()] refuses NaN. *)
Definition number_ : parser float :=
  fun v => match v with
           | JNum n => if PrimFloat.is_nan n then None else Some n
           | _ => None
           end.

Definition boolean_ : parser bool :=
  fun v => match v with JBool b => Some b | _ => None end.

Fixpoint all {A} (p : parser A) (items : list Json) : option (list A) :=
  match items with
  | [] => Some []
  | j :: rest =>
      match p j, all p rest with
      | Some a, Some r => Some (a :: r)
      | _, _ => None
      end
  end.

Definition array_ {A} (p : parser A) : parser (list A) :=
  fun v => match v with JArr items => all p items | _ => None end.

(** The properties [z.record] copies to its result: all but [__proto__]. *)
Definition without_proto (props : list (string * Json))
  : list (string * Json) :=
  List.filter (fun kv => negb (String.eqb (fst kv) "__proto__")) props.

(** [z.record(z.any())]: any object; its values are untouched and the key
    [__proto__] is left out of the result. *)
Definition record_any : parser (list (string * Json)) :=
  fun v => match v with
           | JObj props => Some (without_proto props)
           | _ => None
           end.

(** [.min(1, ...)] on an array. *)
Definition min1 {A} (l : list A) : option (list A) :=
  match l with
  | [] => None
  | _ => Some l
  end.

(** [.refine(check, ...)]. *)
Definition refine {A} (check : A -> bool) (a : A) : option A :=
  if check a then Some a else None.

End Zod.

(** ** shared/schema.ts *)

Module Schema.
Import Js.

(** [ProposalStage]: the five review stages. *)
Inductive ProposalStage : Type :=
| DOC_REVIEW
| RISK_REVIEW
| APPROVED
| REJECTED
| CHANGES_REQUESTED.

(** [DecisionType]. *)
Inductive DecisionType : Type :=
| APPROVE
| REJECT
| REQUEST_CHANGES.

#[global] Instance ProposalStage_eq_dec : EqDecision ProposalStage.
Proof. solve_decision. Defined.

#[global] Instance DecisionType_eq_dec : EqDecision DecisionType.
Proof. solve_decision. Defined.

(** The string constant behind each member of the two objects. *)
Definition stage_name (s : ProposalStage) : string :=
  match s with
  | DOC_REVIEW => "DOC_REVIEW"
  | RISK_REVIEW => "RISK_REVIEW"
  | APPROVED => "APPROVED"
  | REJECTED => "REJECTED"
  | CHANGES_REQUESTED => "CHANGES_REQUESTED"
  end.

Definition decision_name (d : DecisionType) : string :=
  match d with
  | APPROVE => "APPROVE"
  | REJECT => "REJECT"
  | REQUEST_CHANGES => "REQUEST_CHANGES"
  end.

(** [z.enum([...])]: the string must be the name of one of the options. *)
Definition enum {A} (name : A -> string) (options : list A) : Zod.parser A :=
  fun v => match v with
           | JStr s => find (fun o => String.eqb s (name o)) options
           | _ => None
           end.

(** *** Members *)

Module Member.
Record t : Type := mk {
  memberId : option string;
  name : option string;
  firstName : option string;
  lastName : option string;
  loanAmount : option float;
  requestedAmount : option float;
  phone : option string;
  idNumber : option string;
  evidencePhotos : option (list string);
  signature : option string;
  isLeader : option bool
}.
End Member.

Module NormalizedMember.
Record t : Type := mk {
  memberId : string;
  name : string;
  firstName : option string;
  lastName : option string;
  loanAmount : float;
  requestedAmount : option float;
  phone : option string;
  idNumber : option string;
  evidencePhotos : option (list string);
  signature : option string;
  isLeader : option bool
}.
End NormalizedMember.

(** The two [.refine] checks of [memberSchema]. *)
Definition has_name (data : Member.t) : bool :=
  match Member.name data with
  | Some s => truthy s
  | None => false
  end
  || (match Member.firstName data with Some s => truthy s | None => false end
      && match Member.lastName data with Some s => truthy s | None => false end).

Definition has_amount (data : Member.t) : bool :=
  match Member.loanAmount data, Member.requestedAmount data with
  | None, None => false
  | _, _ => true
  end.

(** [memberSchema.safeParse]: unknown keys are stripped. *)
Definition memberSchema : Zod.parser Member.t :=
  fun v =>
    match v with
    | JObj _ =>
        memberId ← Zod.optional Zod.string_ (get "memberId" v);
        name ← Zod.optional Zod.string_ (get "name" v);
        firstName ← Zod.optional Zod.string_ (get "firstName" v);
        lastName ← Zod.optional Zod.string_ (get "lastName" v);
        loanAmount ← Zod.optional Zod.number_ (get "loanAmount" v);
        requestedAmount ← Zod.optional Zod.number_ (get "requestedAmount" v);
        phone ← Zod.optional Zod.string_ (get "phone" v);
        idNumber ← Zod.optional Zod.string_ (get "idNumber" v);
        evidencePhotos ←
          Zod.optional (Zod.array_ Zod.string_) (get "evidencePhotos" v);
        signature ← Zod.optional Zod.string_ (get "signature" v);
        isLeader ← Zod.optional Zod.boolean_ (get "isLeader" v);
        data ← Zod.refine has_name
               (Member.mk memberId name firstName lastName loanAmount
                  requestedAmount phone idNumber evidencePhotos signature
                  isLeader);
        Zod.refine has_amount data
    | _ => None
    end.

(** [normalizeMember(member, index)]. *)
Definition normalizeMember (member : Member.t) (index : nat)
  : NormalizedMember.t :=
  let name :=
    str_or (Member.name member)
      (trim (str_or (Member.firstName member) "" ++ " "
             ++ str_or (Member.lastName member) "")) in
  let loanAmount :=
    default (default 0%float (Member.requestedAmount member))
      (Member.loanAmount member) in
  {| NormalizedMember.memberId :=
       str_or (Member.memberId member) ("M" ++ nat_to_string (index + 1));
     NormalizedMember.name := name;
     NormalizedMember.firstName := Member.firstName member;
     NormalizedMember.lastName := Member.lastName member;
     NormalizedMember.loanAmount := loanAmount;
     NormalizedMember.requestedAmount := Member.requestedAmount member;
     NormalizedMember.phone := Member.phone member;
     NormalizedMember.idNumber := Member.idNumber member;
     NormalizedMember.evidencePhotos := Member.evidencePhotos member;
     NormalizedMember.signature := Member.signature member;
     NormalizedMember.isLeader := Member.isLeader member |}.

(** *** Proposal payloads *)

Module ProposalPayload.
Record t : Type := mk {
  groupId : string;
  groupName : option string;
  leaderName : option string;
  leaderPhone : option string;
  members : list Member.t;
  totalAmount : option float;
  contractText : option string;
  evidencePhotos : option (list string);
  formData : option (list (string * Json))
}.
End ProposalPayload.

Module NormalizedProposalPayload.
Record t : Type := mk {
  groupId : string;
  groupName : string;
  leaderName : string;
  leaderPhone : option string;
  members : list NormalizedMember.t;
  totalAmount : float;
  contractText : option string;
  evidencePhotos : option (list string);
  formData : option (list (string * Json))
}.
End NormalizedProposalPayload.

(** [proposalPayloadSchema.safeParse]. *)
Definition proposalPayloadSchema : Zod.parser ProposalPayload.t :=
  fun v =>
    match v with
    | JObj _ =>
        groupId ← Zod.required Zod.string_ (get "groupId" v);
        groupName ← Zod.optional Zod.string_ (get "groupName" v);
        leaderName ← Zod.optional Zod.string_ (get "leaderName" v);
        leaderPhone ← Zod.optional Zod.string_ (get "leaderPhone" v);
        members ← Zod.required (Zod.array_ memberSchema) (get "members" v)
                  ≫= Zod.min1;
        totalAmount ← Zod.optional Zod.number_ (get "totalAmount" v);
        contractText ← Zod.optional Zod.string_ (get "contractText" v);
        evidencePhotos ←
          Zod.optional (Zod.array_ Zod.string_) (get "evidencePhotos" v);
        formData ← Zod.optional Zod.record_any (get "formData" v);
        Some (ProposalPayload.mk groupId groupName leaderName leaderPhone
                members totalAmount contractText evidencePhotos formData)
    | _ => None
    end.

(** [normalizeProposalPayload(payload)]. *)
Definition normalizeProposalPayload (payload : ProposalPayload.t)
  : NormalizedProposalPayload.t :=
  let members := imap (fun i m => normalizeMember m i)
                   (ProposalPayload.members payload) in
  let leader :=
    match find (fun m => flag (NormalizedMember.isLeader m)) members with
    | Some m => Some m
    | None => head members
    end in
  let totalAmount :=
    default
      (fold_left (fun sum m => (sum + NormalizedMember.loanAmount m)%float)
         members 0%float)
      (ProposalPayload.totalAmount payload) in
  {| NormalizedProposalPayload.groupId := ProposalPayload.groupId payload;
     NormalizedProposalPayload.groupName :=
       str_or (ProposalPayload.groupName payload)
         ("Group " ++ ProposalPayload.groupId payload);
     NormalizedProposalPayload.leaderName :=
       str_or (ProposalPayload.leaderName payload)
         (str_or (option_map NormalizedMember.name leader) "Unknown");
     NormalizedProposalPayload.leaderPhone :=
       ProposalPayload.leaderPhone payload;
     NormalizedProposalPayload.members := members;
     NormalizedProposalPayload.totalAmount := totalAmount;
     NormalizedProposalPayload.contractText :=
       ProposalPayload.contractText payload;
     NormalizedProposalPayload.evidencePhotos :=
       ProposalPayload.evidencePhotos payload;
     NormalizedProposalPayload.formData :=
       ProposalPayload.formData payload |}.

(** A normalised member is a member, and a normalised payload a payload:
    the interfaces are structural, so the normalisers accept their own
    results. *)
Definition member_of (m : NormalizedMember.t) : Member.t :=
  {| Member.memberId := Some (NormalizedMember.memberId m);
     Member.name := Some (NormalizedMember.name m);
     Member.firstName := NormalizedMember.firstName m;
     Member.lastName := NormalizedMember.lastName m;
     Member.loanAmount := Some (NormalizedMember.loanAmount m);
     Member.requestedAmount := NormalizedMember.requestedAmount m;
     Member.phone := NormalizedMember.phone m;
     Member.idNumber := NormalizedMember.idNumber m;
     Member.evidencePhotos := NormalizedMember.evidencePhotos m;
     Member.signature := NormalizedMember.signature m;
     Member.isLeader := NormalizedMember.isLeader m |}.

Definition payload_of (p : NormalizedProposalPayload.t) : ProposalPayload.t :=
  {| ProposalPayload.groupId := NormalizedProposalPayload.groupId p;
     ProposalPayload.groupName := Some (NormalizedProposalPayload.groupName p);
     ProposalPayload.leaderName :=
       Some (NormalizedProposalPayload.leaderName p);
     ProposalPayload.leaderPhone := NormalizedProposalPayload.leaderPhone p;
     ProposalPayload.members :=
       member_of <$> NormalizedProposalPayload.members p;
     ProposalPayload.totalAmount :=
       Some (NormalizedProposalPayload.totalAmount p);
     ProposalPayload.contractText := NormalizedProposalPayload.contractText p;
     ProposalPayload.evidencePhotos :=
       NormalizedProposalPayload.evidencePhotos p;
     ProposalPayload.formData := NormalizedProposalPayload.formData p |}.

(** *** Proposals and decisions *)

Record Proposal : Type := {
  proposalId : string;
  stage : ProposalStage;
  submittedAt : string;
  payload : NormalizedProposalPayload.t
}.

Module Decision.
Record t : Type := mk {
  decisionId : string;
  proposalId : string;
  stage : ProposalStage;
  decision : DecisionType;
  reasons : list string;
  comment : option string;
  userId : string;
  createdAt : string
}.
End Decision.

Module InsertDecision.
Record t : Type := mk {
  stage : ProposalStage;
  decision : DecisionType;
  reasons : list string;
  comment : option string;
  userId : string
}.
End InsertDecision.

(** [insertDecisionSchema.safeParse]. *)
Definition insertDecisionSchema : Zod.parser InsertDecision.t :=
  fun v =>
    match v with
    | JObj _ =>
        stage ← Zod.required (enum stage_name [DOC_REVIEW; RISK_REVIEW])
                  (get "stage" v);
        decision ← Zod.required
                     (enum decision_name [APPROVE; REJECT; REQUEST_CHANGES])
                     (get "decision" v);
        reasons ← Zod.required (Zod.array_ Zod.string_) (get "reasons" v);
        comment ← Zod.optional Zod.string_ (get "comment" v);
        userId ← Zod.required Zod.string_ (get "userId" v);
        Some (InsertDecision.mk stage decision reasons comment userId)
    | _ => None
    end.

Module ProposalDetail.
Record t : Type := mk {
  proposalId : string;
  stage : ProposalStage;
  submittedAt : string;
  payload : NormalizedProposalPayload.t;
  decisions : list Decision.t
}.
End ProposalDetail.

End Schema.

(** ** The storage collaborator

    [server/storage.ts] is reached only through [storage.f(...)] calls. A
    handler is therefore a tree of such calls, each followed by what the
    handler does with the answer, and it can be run against any
    implementation of the interface. *)

Module Storage.
Import Schema.

(** A handler that answers with an [A]. *)
Inductive Prog (A : Type) : Type :=
| Ret (a : A)
| CreateProposal (payload : NormalizedProposalPayload.t)
    (k : Proposal -> Prog A)
| GetProposalDetail (proposalId : string)
    (k : option ProposalDetail.t -> Prog A)
| CreateDecision (proposalId : string) (data : InsertDecision.t)
    (k : Decision.t -> Prog A)
| UpdateProposalStage (proposalId : string) (stage : ProposalStage)
    (k : Prog A).

Arguments Ret {A} a.
Arguments CreateProposal {A} payload k.
Arguments GetProposalDetail {A} proposalId k.
Arguments CreateDecision {A} proposalId data k.
Arguments UpdateProposalStage {A} proposalId stage k.

(** A storage call either resolves or rejects. *)
Inductive Outcome (A : Type) : Type :=
| Returned (a : A)
| Threw.

Arguments Returned {A} a.
Arguments Threw {A}.

(** An implementation over stores of type [S]. The detail query reads the
    store; the three others may change it, also when they reject. *)
Class IStorage (S : Type) : Type := {
  createProposal : NormalizedProposalPayload.t -> S -> Outcome Proposal * S;
  getProposalDetail : string -> S -> Outcome (option ProposalDetail.t);
  createDecision : string -> InsertDecision.t -> S -> Outcome Decision.t * S;
  updateProposalStage : string -> ProposalStage -> S -> Outcome unit * S
}.

(** The calls a run makes, in order. *)
Inductive Call : Type :=
| CallCreateProposal (payload : NormalizedProposalPayload.t)
| CallGetProposalDetail (proposalId : string)
| CallCreateDecision (proposalId : string) (data : InsertDecision.t)
| CallUpdateProposalStage (proposalId : string) (stage : ProposalStage).

Definition is_write (c : Call) : bool :=
  match c with
  | CallGetProposalDetail _ => false
  | _ => true
  end.

(** What a run leaves behind. *)
Record Run (S A : Type) : Type := {
  answer : A;
  store : S;
  calls : list Call
}.

Arguments answer {S A} r.
Arguments store {S A} r.
Arguments calls {S A} r.

Definition called {S A} (c : Call) (r : Run S A) : Run S A :=
  {| answer := answer r; store := store r; calls := c :: calls r |}.

(** Running a handler from store [s]; [caught] is the answer of its
    [catch] block, given as soon as a call rejects. *)
Fixpoint run {S A} `{IStorage S} (caught : A) (p : Prog A) (s : S)
  : Run S A :=
  match p with
  | Ret a => {| answer := a; store := s; calls := [] |}
  | CreateProposal payload k =>
      match createProposal payload s with
      | (Returned proposal, s') =>
          called (CallCreateProposal payload) (run caught (k proposal) s')
      | (Threw, s') =>
          {| answer := caught; store := s';
             calls := [CallCreateProposal payload] |}
      end
  | GetProposalDetail proposalId k =>
      match getProposalDetail proposalId s with
      | Returned detail =>
          called (CallGetProposalDetail proposalId) (run caught (k detail) s)
      | Threw =>
          {| answer := caught; store := s;
             calls := [CallGetProposalDetail proposalId] |}
      end
  | CreateDecision proposalId data k =>
      match createDecision proposalId data s with
      | (Returned decision, s') =>
          called (CallCreateDecision proposalId data)
            (run caught (k decision) s')
      | (Threw, s') =>
          {| answer := caught; store := s';
             calls := [CallCreateDecision proposalId data] |}
      end
  | UpdateProposalStage proposalId stage k =>
      match updateProposalStage proposalId stage s with
      | (Returned _, s') =>
          called (CallUpdateProposalStage proposalId stage)
            (run caught k s')
      | (Threw, s') =>
          {| answer := caught; store := s';
             calls := [CallUpdateProposalStage proposalId stage] |}
      end
  end.

End Storage.

(** ** server/routes.ts *)

Module Routes.
Import Js Schema Storage.

(** The JSON bodies the two handlers answer with ([details], the flattened
    zod error, is left out). *)
Inductive Reply : Type :=
| Error (error : string)
| InvalidProposalPayload (wrapped : bool) (incomingProposalId : Json)
    (normalizedKeys : list string)
| ProposalCreated (proposalId : string) (stage : ProposalStage)
    (submittedAt : string)
| CompletedProposal (stage : ProposalStage)
| StageMismatch (currentStage decisionStage : ProposalStage)
| DecisionCreated (decisionId : string)
    (previousStage newStage : ProposalStage) (decision : DecisionType).

(** [res.status(status).json(reply)]. *)
Record Response : Type := {
  status : nat;
  reply : Reply
}.

Definition respond (status : nat) (reply : Reply) : Response :=
  {| status := status; reply := reply |}.

(** The [catch] block of both handlers. *)
Definition internalError : Response :=
  respond 500 (Error "Internal server error").

(** *** POST /api/proposals/submit *)

(** [req.body ?? {}]. *)
Definition rawBodyOf (body : option Json) : Json :=
  match body with
  | None | Some JNull => JObj []
  | Some b => b
  end.

(** The candidate payload: the nested [payload] object of an envelope,
    else the body itself. *)
Definition normalizedBodyOf (rawBody : Json) : Json :=
  match get "payload" rawBody with
  | Some payload => if truthy_object payload then payload else rawBody
  | None => rawBody
  end.

Definition incomingProposalIdOf (rawBody normalizedBody : Json) : Json :=
  default JNull
    (coalesce (get "proposalId" rawBody)
       (coalesce (get "proposalId" normalizedBody) (Some JNull))).

Definition submitHandler (body : option Json) : Prog Response :=
  let rawBody := rawBodyOf body in
  let normalizedBody := normalizedBodyOf rawBody in
  let incomingProposalId := incomingProposalIdOf rawBody normalizedBody in
  match proposalPayloadSchema normalizedBody with
  | None =>
      Ret (respond 400
             (InvalidProposalPayload (truthy_json (get "payload" rawBody))
                incomingProposalId (keys normalizedBody)))
  | Some data =>
      let normalizedPayload := normalizeProposalPayload data in
      CreateProposal normalizedPayload (fun proposal =>
        Ret (respond 201
               (ProposalCreated (proposalId proposal) (stage proposal)
                  (submittedAt proposal))))
  end.

(** *** POST /api/gate/proposals/:proposalId/decision *)

(** "Determine new stage based on decision": the stage to move to, or the
    response of the branch that returns early. *)
Definition newStage (decisionData : InsertDecision.t)
  : Response + ProposalStage :=
  if decide (InsertDecision.decision decisionData = REJECT) then
    inr REJECTED
  else if decide (InsertDecision.decision decisionData = REQUEST_CHANGES) then
    inr CHANGES_REQUESTED
  else if decide (InsertDecision.decision decisionData = APPROVE) then
    if decide (InsertDecision.stage decisionData = DOC_REVIEW) then
      inr RISK_REVIEW
    else if decide (InsertDecision.stage decisionData = RISK_REVIEW) then
      inr APPROVED
    else
      inl (respond 400 (Error "Invalid approval stage"))
  else
    inl (respond 400 (Error "Invalid decision type")).

(** The handler from the point where the decision payload has been
    validated and the proposal fetched. *)
Definition decideOn (proposalId : string) (decisionData : InsertDecision.t)
    (proposal : ProposalDetail.t) : Prog Response :=
  if bool_decide (ProposalDetail.stage proposal = APPROVED)
     || bool_decide (ProposalDetail.stage proposal = REJECTED) then
    Ret (respond 400 (CompletedProposal (ProposalDetail.stage proposal)))
  else if bool_decide (ProposalDetail.stage proposal
                       ≠ InsertDecision.stage decisionData) then
    Ret (respond 400
           (StageMismatch (ProposalDetail.stage proposal)
              (InsertDecision.stage decisionData)))
  else
    CreateDecision proposalId decisionData (fun decision =>
      match newStage decisionData with
      | inl early => Ret early
      | inr stage' =>
          UpdateProposalStage proposalId stage'
            (Ret (respond 201
                    (DecisionCreated (Decision.decisionId decision)
                       (ProposalDetail.stage proposal) stage'
                       (InsertDecision.decision decisionData))))
      end).

(** The handler from the point where the decision payload has been
    validated. *)
Definition decideValidated (proposalId : string)
    (decisionData : InsertDecision.t) : Prog Response :=
  GetProposalDetail proposalId (fun proposal =>
    match proposal with
    | None => Ret (respond 404 (Error "Proposal not found"))
    | Some proposal => decideOn proposalId decisionData proposal
    end).

Definition decisionHandler (proposalId : string) (body : option Json)
  : Prog Response :=
  match Zod.required insertDecisionSchema body with
  | None => Ret (respond 400 (Error "Invalid decision payload"))
  | Some decisionData => decideValidated proposalId decisionData
  end.

End Routes.

(** ** An in-memory Proposal Repository *)

Module MemStorage.
Import Js Schema Storage.

(** Modelled from the spec: [server/storage.ts] is not among the sources
    embedded here. The store is the Proposal Repository of the specification:
    proposals keyed by identifier, an append-only decision history in
    creation order, and a counter from which fresh identifiers and
    timestamps are drawn. *)
Record Mem : Type := {
  proposals : gmap string Proposal;
  decisions : list Decision.t;
  ticks : nat
}.

Definition empty : Mem :=
  {| proposals := ∅; decisions := []; ticks := 0 |}.

(** Modelled from the spec: [create(payload) -> Proposal], a new proposal
    with a fresh identifier, at stage [DOC_REVIEW]. *)
Definition mem_createProposal (payload : NormalizedProposalPayload.t)
    (s : Mem) : Outcome Proposal * Mem :=
  let proposal :=
    {| proposalId := "P" ++ nat_to_string (ticks s);
       stage := DOC_REVIEW;
       submittedAt := nat_to_string (ticks s);
       payload := payload |} in
  (Returned proposal,
   {| proposals := <[proposalId proposal := proposal]> (proposals s);
      decisions := decisions s;
      ticks := S (ticks s) |}).

(** Modelled from the spec: [getDetail(id) -> ProposalDetail | null], the
    proposal with its decision history in creation order. *)
Definition mem_getProposalDetail (id : string) (s : Mem)
  : Outcome (option ProposalDetail.t) :=
  Returned
    (match proposals s !! id with
     | Some proposal =>
         Some {| ProposalDetail.proposalId := proposalId proposal;
                 ProposalDetail.stage := stage proposal;
                 ProposalDetail.submittedAt := submittedAt proposal;
                 ProposalDetail.payload := payload proposal;
                 ProposalDetail.decisions :=
                   List.filter
                     (fun d => String.eqb (Decision.proposalId d) id)
                     (decisions s) |}
     | None => None
     end).

(** Modelled from the spec: the record half of [recordDecision], a new
    Decision with a fresh identifier and the current timestamp, holding the
    stage the decision was made at. *)
Definition mem_createDecision (id : string) (data : InsertDecision.t)
    (s : Mem) : Outcome Decision.t * Mem :=
  let decision :=
    {| Decision.decisionId := "D" ++ nat_to_string (ticks s);
       Decision.proposalId := id;
       Decision.stage := InsertDecision.stage data;
       Decision.decision := InsertDecision.decision data;
       Decision.reasons := InsertDecision.reasons data;
       Decision.comment := InsertDecision.comment data;
       Decision.userId := InsertDecision.userId data;
       Decision.createdAt := nat_to_string (ticks s) |} in
  (Returned decision,
   {| proposals := proposals s;
      decisions := decisions s ++ [decision];
      ticks := S (ticks s) |}).

(** Modelled from the spec: the stage half of [recordDecision]; only the
    stage of the proposal changes. *)
Definition mem_updateProposalStage (id : string) (stage' : ProposalStage)
    (s : Mem) : Outcome unit * Mem :=
  (Returned tt,
   {| proposals :=
        alter (fun p => {| proposalId := proposalId p;
                           stage := stage';
                           submittedAt := submittedAt p;
                           payload := payload p |}) id (proposals s);
      decisions := decisions s;
      ticks := ticks s |}).

#[global] Instance mem_storage : IStorage Mem := {
  createProposal := mem_createProposal;
  getProposalDetail := mem_getProposalDetail;
  createDecision := mem_createDecision;
  updateProposalStage := mem_updateProposalStage
}.

(** The stage of a stored proposal. *)
Definition stage_of (id : string) (s : Mem) : option ProposalStage :=
  stage <$> proposals s !! id.

(** The decision history of a proposal. *)
Definition history_of (id : string) (s : Mem) : list Decision.t :=
  List.filter (fun d => String.eqb (Decision.proposalId d) id) (decisions s).

End MemStorage.

(** ** The specification's own words *)

Module Spec.
Import Js Schema.

(** A terminal stage accepts no further decision. *)
Definition terminal (s : ProposalStage) : bool :=
  match s with
  | APPROVED | REJECTED => true
  | _ => false
  end.

(** The reference transition table of the Stage Transition Engine, rules 3
    to 5: the next stage from a non-terminal stage, [None] for an approval
    from a stage that cannot be approved. *)
Definition transition (current : ProposalStage) (decision : DecisionType)
  : option ProposalStage :=
  match decision, current with
  | REJECT, _ => Some REJECTED
  | REQUEST_CHANGES, _ => Some CHANGES_REQUESTED
  | APPROVE, DOC_REVIEW => Some RISK_REVIEW
  | APPROVE, RISK_REVIEW => Some APPROVED
  | APPROVE, _ => None
  end.

(** The stage a request body claims to act on. *)
Definition claimedStage (body : option Json) : option Json :=
  body ≫= get "stage".

(** The identifier rule of the Member Normalizer as it is written: the given
    identifier, else ["M"] and the position plus one. *)
Definition memberId_as_written (member : Member.t) (index : nat) : string :=
  default ("M" ++ nat_to_string (index + 1)) (Member.memberId member).

(** The group-name rule as it is written: the label is used when the name is
    absent. *)
Definition groupName_as_written (payload : ProposalPayload.t) : string :=
  default ("Group " ++ ProposalPayload.groupId payload)
    (ProposalPayload.groupName payload).

(** The leader-name rule as it is written: the explicit name, else the member
    flagged as leader, else the first member, else the sentinel. *)
Definition leaderName_as_written (payload : ProposalPayload.t)
    (members : list NormalizedMember.t) : string :=
  match ProposalPayload.leaderName payload with
  | Some explicit => explicit
  | None =>
      match find (fun m => flag (NormalizedMember.isLeader m)) members with
      | Some flagged => NormalizedMember.name flagged
      | None =>
          match head members with
          | Some first => NormalizedMember.name first
          | None => "Unknown"
          end
      end
  end.

(** The leader of a member list: the first member whose leader flag is set,
    else the first member. *)
Definition leader (members : list NormalizedMember.t)
    (m : NormalizedMember.t) : Prop :=
  (exists i,
      members !! i = Some m
      /\ flag (NormalizedMember.isLeader m) = true
      /\ forall j m', j < i -> members !! j = Some m' ->
                      flag (NormalizedMember.isLeader m') = false)
  \/ ((forall m', m' ∈ members -> flag (NormalizedMember.isLeader m') = false)
      /\ members !! 0 = Some m).

(** The first and last name of a member joined by one space, an absent part
    counting as empty, and trimmed. *)
Definition joined_name (member : Member.t) : string :=
  trim (default "" (Member.firstName member) ++ " "
        ++ default "" (Member.lastName member)).

End Spec.

(** ** Sample requests and stores *)

Module Sample.
Import Js Schema Storage Routes MemStorage.

(** The direct submission of the first scenario. *)
Definition ana : Json :=
  JObj [("groupId", JStr "G1");
        ("members",
         JArr [JObj [("name", JStr "Ana"); ("loanAmount", JNum 100%float)]])].

(** The member and the envelope of the second scenario. *)
Definition bo_member : Json :=
  JObj [("firstName", JStr "Bo"); ("lastName", JStr "Lee");
        ("requestedAmount", JNum 50%float)].

Definition bo_payload : Json :=
  JObj [("groupId", JStr "G2"); ("members", JArr [bo_member])].

Definition bo_envelope : Json :=
  JObj [("proposalId", JStr "ignored"); ("payload", bo_payload)].

(** A decision request body. *)
Definition decision_body (stage decision : string) : option Json :=
  Some (JObj [("stage", JStr stage); ("decision", JStr decision);
              ("reasons", JArr [JStr "checked"]); ("userId", JStr "u1")]).

Definition decision_data (stage : ProposalStage) (decision : DecisionType)
  : InsertDecision.t :=
  {| InsertDecision.stage := stage;
     InsertDecision.decision := decision;
     InsertDecision.reasons := ["checked"];
     InsertDecision.comment := None;
     InsertDecision.userId := "u1" |}.

(** The payload stored for the first scenario. *)
Definition ana_payload : NormalizedProposalPayload.t :=
  {| NormalizedProposalPayload.groupId := "G1";
     NormalizedProposalPayload.groupName := "Group G1";
     NormalizedProposalPayload.leaderName := "Ana";
     NormalizedProposalPayload.leaderPhone := None;
     NormalizedProposalPayload.members :=
       [{| NormalizedMember.memberId := "M1";
           NormalizedMember.name := "Ana";
           NormalizedMember.firstName := None;
           NormalizedMember.lastName := None;
           NormalizedMember.loanAmount := 100%float;
           NormalizedMember.requestedAmount := None;
           NormalizedMember.phone := None;
           NormalizedMember.idNumber := None;
           NormalizedMember.evidencePhotos := None;
           NormalizedMember.signature := None;
           NormalizedMember.isLeader := None |}];
     NormalizedProposalPayload.totalAmount := 100%float;
     NormalizedProposalPayload.contractText := None;
     NormalizedProposalPayload.evidencePhotos := None;
     NormalizedProposalPayload.formData := None |}.

(** A store that holds that proposal, as ["P0"], at a given stage. *)
Definition store_at (stage : ProposalStage) : Mem :=
  {| proposals :=
       {[ "P0" := {| proposalId := "P0"; stage := stage;
                     submittedAt := "0"; payload := ana_payload |} ]};
     decisions := [];
     ticks := 1 |}.

(** What the detail query answers for it. *)
Definition detail_at (stage : ProposalStage) : ProposalDetail.t :=
  {| ProposalDetail.proposalId := "P0";
     ProposalDetail.stage := stage;
     ProposalDetail.submittedAt := "0";
     ProposalDetail.payload := ana_payload;
     ProposalDetail.decisions := [] |}.

(** A member that gives an empty identifier. *)
Definition anonymous_member : Json :=
  JObj [("memberId", JStr ""); ("name", JStr "Ana");
        ("loanAmount", JNum 100%float)].

(** A submission that gives an empty group name and an empty leader name. *)
Definition unnamed : Json :=
  JObj [("groupId", JStr "G1"); ("groupName", JStr "");
        ("leaderName", JStr "");
        ("members",
         JArr [JObj [("name", JStr "Ana"); ("loanAmount", JNum 100%float)]])].

(** A submission whose only member has blank first and last names. *)
Definition blank_leader : Json :=
  JObj [("groupId", JStr "G1");
        ("members",
         JArr [JObj [("firstName", JStr " "); ("lastName", JStr " ");
                     ("loanAmount", JNum 100%float)]])].

End Sample.

(** ** The read-only routes of server/routes.ts *)

Module Listing.
Import Js Schema Storage Routes.

(** [ProposalSummary] of shared/schema.ts, the row of a list view. *)
Module ProposalSummary.
Record t : Type := mk {
  proposalId : string;
  groupId : string;
  leaderName : string;
  membersCount : float;
  totalAmount : float;
  submittedAt : string;
  stage : ProposalStage;
  evidenceRequiredCount : float;
  evidenceCompletedCount : float
}.
End ProposalSummary.

(** A value of [req.query]: a string, an array ([?k[]=a&k[]=b]) or a nested
    object ([?k[a]=b]). *)
Inductive QueryValue : Type :=
| QString (s : string)
| QArray (items : list QueryValue)
| QObject (props : list (string * QueryValue)).

(** [Array.prototype.join]. *)
Fixpoint join (sep : string) (parts : list string) : string :=
  match parts with
  | [] => EmptyString
  | [part] => part
  | part :: rest => part ++ sep ++ join sep rest
  end.

(** [String(v)], which throws a TypeError ([None]) for an object whose own
    [toString] property hides the inherited method: no value of a query is
    callable, and the inherited [valueOf] returns the object itself. The
    elements of an array are converted the same way and joined. *)
Fixpoint to_string (v : QueryValue) : option string :=
  match v with
  | QString s => Some s
  | QArray items =>
      option_map (join ",")
        ((fix each (l : list QueryValue) : option (list string) :=
            match l with
            | [] => Some []
            | item :: rest =>
                match to_string item, each rest with
                | Some part, Some parts => Some (part :: parts)
                | _, _ => None
                end
            end) items)
  | QObject props =>
      match find (fun kv => String.eqb (fst kv) "toString") props with
      | Some _ => None
      | None => Some "[object Object]"
      end
  end.

(** [String(v || "")] for a parameter that may be absent. *)
Definition string_or_empty (v : option QueryValue) : option string :=
  match v with
  | None => Some EmptyString
  | Some (QString s) => Some s
  | Some v => to_string v
  end.

(** [Object.values(ProposalStage)]. *)
Definition validStages : list ProposalStage :=
  [DOC_REVIEW; RISK_REVIEW; APPROVED; REJECTED; CHANGES_REQUESTED].

(** The list query of the storage collaborator. *)
Class IListing (S : Type) : Type := {
  getProposalsByStage :
    ProposalStage -> S -> Outcome (list ProposalSummary.t)
}.

(** A read-only handler: a tree of queries. *)
Inductive Query (A : Type) : Type :=
| Answer (a : A)
| GetProposalsByStage (stage : ProposalStage)
    (k : list ProposalSummary.t -> Query A)
| GetDetail (proposalId : string) (k : option ProposalDetail.t -> Query A).

Arguments Answer {A} a.
Arguments GetProposalsByStage {A} stage k.
Arguments GetDetail {A} proposalId k.

Inductive Read : Type :=
| ReadProposalsByStage (stage : ProposalStage)
| ReadDetail (proposalId : string).

(** Running a read-only handler on store [s]: its answer and the queries it
    made; [caught] is the answer of its [catch] block. *)
Fixpoint ask {S A} `{IStorage S} `{IListing S} (caught : A) (q : Query A)
    (s : S) : A * list Read :=
  match q with
  | Answer a => (a, [])
  | GetProposalsByStage stage k =>
      match getProposalsByStage stage s with
      | Returned proposals =>
          let '(a, reads) := ask caught (k proposals) s in
          (a, ReadProposalsByStage stage :: reads)
      | Threw => (caught, [ReadProposalsByStage stage])
      end
  | GetDetail proposalId k =>
      match getProposalDetail proposalId s with
      | Returned detail =>
          let '(a, reads) := ask caught (k detail) s in
          (a, ReadDetail proposalId :: reads)
      | Threw => (caught, [ReadDetail proposalId])
      end
  end.

(** The JSON bodies of the read-only routes. *)
Inductive Listed : Type :=
| Failed (error : string)
| InvalidStage (error : string) (validStages : list ProposalStage)
| Polled (status : string) (count : nat) (proposals : list ProposalSummary.t)
| Staged (stage : string) (count : nat) (proposals : list ProposalSummary.t)
| Found (proposal : ProposalDetail.t)
| Healthy (status service : string).

(** [res.status(code).json(body)]; [res.json(body)] answers 200. *)
Definition failure : nat * Listed := (500, Failed "Internal server error").

(** GET /api/hunt/proposals?status=CHANGES_REQUESTED; a [status] that
    [String] cannot convert ends in the [catch] block. *)
Definition huntProposals (status : option QueryValue) : Query (nat * Listed) :=
  match string_or_empty status with
  | None => Answer failure
  | Some status =>
      if String.eqb status "CHANGES_REQUESTED" then
        GetProposalsByStage CHANGES_REQUESTED (fun proposals =>
          Answer (200, Polled status (length proposals) proposals))
      else
        Answer (200, Polled status 0 [])
  end.

(** GET /api/hunt/proposals/:proposalId and
    GET /api/gate/proposals/:proposalId, which have the same body. *)
Definition proposalDetail (proposalId : string) : Query (nat * Listed) :=
  GetDetail proposalId (fun proposal =>
    match proposal with
    | None => Answer (404, Failed "Proposal not found")
    | Some proposal => Answer (200, Found proposal)
    end).

(** GET /api/gate/proposals?stage=... *)
Definition gateProposals (stage : option QueryValue) : Query (nat * Listed) :=
  match stage with
  | Some (QString name) =>
      match find (fun st => String.eqb name (stage_name st)) validStages with
      | Some st =>
          GetProposalsByStage st (fun proposals =>
            Answer (200, Staged name (length proposals) proposals))
      | None =>
          Answer (400, InvalidStage "Invalid or missing stage parameter"
                         validStages)
      end
  | _ =>
      Answer (400, InvalidStage "Invalid or missing stage parameter"
                     validStages)
  end.

(** GET /api/health *)
Definition health : nat * Listed :=
  (200, Healthy "ok" "artemis-arise-backend").

End Listing.

(** ** What validated data says about the body it came from *)

Module Reflects.
Import Js Schema Storage Routes.

(** The property names [memberSchema] reads. *)
Definition member_keys : list string :=
  ["memberId"; "name"; "firstName"; "lastName"; "loanAmount";
   "requestedAmount"; "phone"; "idNumber"; "evidencePhotos"; "signature";
   "isLeader"].

(** The property names [proposalPayloadSchema] reads. *)
Definition payload_keys : list string :=
  ["groupId"; "groupName"; "leaderName"; "leaderPhone"; "members";
   "totalAmount"; "contractText"; "evidencePhotos"; "formData"].

(** The property names [insertDecisionSchema] reads. *)
Definition decision_keys : list string :=
  ["stage"; "decision"; "reasons"; "comment"; "userId"].

(** An optional string, number, boolean or string array is the property of
    that name; a number is never NaN. *)
Definition is_string (v : Json) (k : string) (field : option string) : Prop :=
  get k v = JStr <$> field.

Definition is_number (v : Json) (k : string) (field : option float) : Prop :=
  get k v = JNum <$> field
  /\ forall n, field = Some n -> PrimFloat.is_nan n = false.

Definition is_boolean (v : Json) (k : string) (field : option bool) : Prop :=
  get k v = JBool <$> field.

Definition is_strings (v : Json) (k : string) (field : option (list string))
  : Prop :=
  get k v = (fun l => JArr (JStr <$> l)) <$> field.

(** An optional record is the object of that name, without the property
    [__proto__]. *)
Definition is_record (v : Json) (k : string)
    (field : option (list (string * Json))) : Prop :=
  match field with
  | None => get k v = None
  | Some kept =>
      exists props,
        get k v = Some (JObj props) /\ kept = Zod.without_proto props
  end.

(** A member holds exactly what an object says under the member keys, and
    passes the two refinements. *)
Definition member (v : Json) (m : Member.t) : Prop :=
  (exists props, v = JObj props)
  /\ is_string v "memberId" (Member.memberId m)
  /\ is_string v "name" (Member.name m)
  /\ is_string v "firstName" (Member.firstName m)
  /\ is_string v "lastName" (Member.lastName m)
  /\ is_number v "loanAmount" (Member.loanAmount m)
  /\ is_number v "requestedAmount" (Member.requestedAmount m)
  /\ is_string v "phone" (Member.phone m)
  /\ is_string v "idNumber" (Member.idNumber m)
  /\ is_strings v "evidencePhotos" (Member.evidencePhotos m)
  /\ is_string v "signature" (Member.signature m)
  /\ is_boolean v "isLeader" (Member.isLeader m)
  /\ has_name m = true
  /\ has_amount m = true.

(** A payload holds exactly what an object says under the payload keys; its
    members are the elements of a non-empty [members] array, in order, and
    its auxiliary data the [formData] object without [__proto__]. *)
Definition payload (v : Json) (p : ProposalPayload.t) : Prop :=
  (exists props, v = JObj props)
  /\ get "groupId" v = Some (JStr (ProposalPayload.groupId p))
  /\ is_string v "groupName" (ProposalPayload.groupName p)
  /\ is_string v "leaderName" (ProposalPayload.leaderName p)
  /\ is_string v "leaderPhone" (ProposalPayload.leaderPhone p)
  /\ (exists items,
        get "members" v = Some (JArr items)
        /\ Forall2 member items (ProposalPayload.members p)
        /\ items <> [])
  /\ is_number v "totalAmount" (ProposalPayload.totalAmount p)
  /\ is_string v "contractText" (ProposalPayload.contractText p)
  /\ is_strings v "evidencePhotos" (ProposalPayload.evidencePhotos p)
  /\ is_record v "formData" (ProposalPayload.formData p).

(** A decision request holds exactly what an object says under the decision
    keys, and claims one of the two review stages. *)
Definition decision (v : Json) (d : InsertDecision.t) : Prop :=
  (exists props, v = JObj props)
  /\ get "stage" v = Some (JStr (stage_name (InsertDecision.stage d)))
  /\ (InsertDecision.stage d = DOC_REVIEW
      \/ InsertDecision.stage d = RISK_REVIEW)
  /\ get "decision" v
     = Some (JStr (decision_name (InsertDecision.decision d)))
  /\ get "reasons" v = Some (JArr (JStr <$> InsertDecision.reasons d))
  /\ is_string v "comment" (InsertDecision.comment d)
  /\ get "userId" v = Some (JStr (InsertDecision.userId d)).

End Reflects.

(** ** Further sample requests *)

Module Cases.
Import Js Schema Storage Routes.

(** The properties of the member Bo Lee, and the validated member. *)
Definition bo_props : list (string * Json) :=
  [("firstName", JStr "Bo"); ("lastName", JStr "Lee");
   ("requestedAmount", JNum 50%float)].

Definition bo : Member.t :=
  {| Member.memberId := None;
     Member.name := None;
     Member.firstName := Some "Bo";
     Member.lastName := Some "Lee";
     Member.loanAmount := None;
     Member.requestedAmount := Some 50%float;
     Member.phone := None;
     Member.idNumber := None;
     Member.evidencePhotos := None;
     Member.signature := None;
     Member.isLeader := None |}.

(** The validated member Ana and the validated submission of Ana. *)
Definition ana : Member.t :=
  {| Member.memberId := None;
     Member.name := Some "Ana";
     Member.firstName := None;
     Member.lastName := None;
     Member.loanAmount := Some 100%float;
     Member.requestedAmount := None;
     Member.phone := None;
     Member.idNumber := None;
     Member.evidencePhotos := None;
     Member.signature := None;
     Member.isLeader := None |}.

Definition group_of (members : list Member.t) : ProposalPayload.t :=
  {| ProposalPayload.groupId := "G1";
     ProposalPayload.groupName := None;
     ProposalPayload.leaderName := None;
     ProposalPayload.leaderPhone := None;
     ProposalPayload.members := members;
     ProposalPayload.totalAmount := None;
     ProposalPayload.contractText := None;
     ProposalPayload.evidencePhotos := None;
     ProposalPayload.formData := None |}.

(** The properties of a payload, and a submission without members. *)
Definition group_props : list (string * Json) :=
  [("groupId", JStr "G2"); ("members", JArr [JObj bo_props])].

Definition no_members : Json := JObj [("groupId", JStr "G1")].


(** A valid payload that carries an object under [payload], and the envelope
    that wraps it. *)
Definition nested : list (string * Json) :=
  [("groupId", JStr "G1");
   ("members",
    JArr [JObj [("name", JStr "Ana"); ("loanAmount", JNum 100%float)]]);
   ("payload", JObj [])].

Definition nested_envelope : Json :=
  JObj [("proposalId", JStr "x"); ("payload", JObj nested)].

End Cases.

(** ** A repository that fails between the two writes *)

Module Outage.
Import Js Schema Storage Routes MemStorage.


End Outage.

Import Js Schema Storage Routes.

(** The runs of the decision handler from a store [s], one constructor for
    each way through it. *)
Inductive DecisionRun {S : Type} `{IStorage S} (proposalId : string)
    (body : option Json) (s : S) : Run S Response -> Prop :=
| RunInvalid :
    Zod.required insertDecisionSchema body = None ->
    DecisionRun proposalId body s
      {| answer := respond 400 (Error "Invalid decision payload");
         store := s; calls := [] |}
| RunLookupFailed d :
    Zod.required insertDecisionSchema body = Some d ->
    getProposalDetail proposalId s = Threw ->
    DecisionRun proposalId body s
      {| answer := internalError; store := s;
         calls := [CallGetProposalDetail proposalId] |}
| RunNotFound d :
    Zod.required insertDecisionSchema body = Some d ->
    getProposalDetail proposalId s = Returned None ->
    DecisionRun proposalId body s
      {| answer := respond 404 (Error "Proposal not found"); store := s;
         calls := [CallGetProposalDetail proposalId] |}
| RunCompleted d proposal :
    Zod.required insertDecisionSchema body = Some d ->
    getProposalDetail proposalId s = Returned (Some proposal) ->
    Spec.terminal (ProposalDetail.stage proposal) = true ->
    DecisionRun proposalId body s
      {| answer :=
           respond 400 (CompletedProposal (ProposalDetail.stage proposal));
         store := s;
         calls := [CallGetProposalDetail proposalId] |}
| RunStale d proposal :
    Zod.required insertDecisionSchema body = Some d ->
    getProposalDetail proposalId s = Returned (Some proposal) ->
    Spec.terminal (ProposalDetail.stage proposal) = false ->
    ProposalDetail.stage proposal <> InsertDecision.stage d ->
    DecisionRun proposalId body s
      {| answer :=
           respond 400
             (StageMismatch (ProposalDetail.stage proposal)
                (InsertDecision.stage d));
         store := s;
         calls := [CallGetProposalDetail proposalId] |}
| RunRecordFailed d proposal s1 :
    Zod.required insertDecisionSchema body = Some d ->
    getProposalDetail proposalId s = Returned (Some proposal) ->
    Spec.terminal (ProposalDetail.stage proposal) = false ->
    ProposalDetail.stage proposal = InsertDecision.stage d ->
    createDecision proposalId d s = (Threw, s1) ->
    DecisionRun proposalId body s
      {| answer := internalError; store := s1;
         calls := [CallGetProposalDetail proposalId;
                   CallCreateDecision proposalId d] |}
| RunStageFailed d proposal decision s1 stage' s2 :
    Zod.required insertDecisionSchema body = Some d ->
    getProposalDetail proposalId s = Returned (Some proposal) ->
    Spec.terminal (ProposalDetail.stage proposal) = false ->
    ProposalDetail.stage proposal = InsertDecision.stage d ->
    createDecision proposalId d s = (Returned decision, s1) ->
    newStage d = inr stage' ->
    updateProposalStage proposalId stage' s1 = (Threw, s2) ->
    DecisionRun proposalId body s
      {| answer := internalError; store := s2;
         calls := [CallGetProposalDetail proposalId;
                   CallCreateDecision proposalId d;
                   CallUpdateProposalStage proposalId stage'] |}
| RunDecided d proposal decision s1 stage' u s2 :
    Zod.required insertDecisionSchema body = Some d ->
    getProposalDetail proposalId s = Returned (Some proposal) ->
    Spec.terminal (ProposalDetail.stage proposal) = false ->
    ProposalDetail.stage proposal = InsertDecision.stage d ->
    createDecision proposalId d s = (Returned decision, s1) ->
    newStage d = inr stage' ->
    updateProposalStage proposalId stage' s1 = (Returned u, s2) ->
    DecisionRun proposalId body s
      {| answer :=
           respond 201
             (DecisionCreated (Decision.decisionId decision)
                (ProposalDetail.stage proposal) stage'
                (InsertDecision.decision d));
         store := s2;
         calls := [CallGetProposalDetail proposalId;
                   CallCreateDecision proposalId d;
                   CallUpdateProposalStage proposalId stage'] |}.

(** ** Properties of the decision handler *)

Lemma enum_sound {A} (name : A -> string) (options : list A) v a :
  enum name options v = Some a -> v = JStr (name a) /\ In a options.
Proof.
  unfold enum. destruct v; try discriminate. intros Hfind.
  apply find_some in Hfind as [Hin Heq]. apply String.eqb_eq in Heq.
  subst. auto.
Qed.

(** A validated decision payload claims [DOC_REVIEW] or [RISK_REVIEW], and
    that stage is the one written in the body. *)
Lemma insertDecisionSchema_stage body d :
  Zod.required insertDecisionSchema body = Some d ->
  Spec.claimedStage body = Some (JStr (stage_name (InsertDecision.stage d)))
  /\ (InsertDecision.stage d = DOC_REVIEW
      \/ InsertDecision.stage d = RISK_REVIEW).
Proof.
  destruct body as [v|]; [|discriminate]. cbn [Zod.required].
  unfold insertDecisionSchema, Spec.claimedStage.
  destruct v; try discriminate. intros Hparse. simplify_option_eq.
  match goal with
  | Hs : Zod.required (enum stage_name _) ?o = Some ?st |- _ =>
      destruct o as [j|] eqn:Hget; [|discriminate];
      apply enum_sound in Hs as [-> Hin]
  end.
  split; [reflexivity|]. cbn in Hin. intuition.
Qed.

(** After validation the new stage is always determined: neither early
    return of the stage computation can be taken. *)
Lemma newStage_validated body d :
  Zod.required insertDecisionSchema body = Some d ->
  newStage d = inr (default REJECTED
                      (Spec.transition (InsertDecision.stage d)
                         (InsertDecision.decision d))).
Proof.
  intros Hparse. apply insertDecisionSchema_stage in Hparse as [_ Hstage].
  destruct d as [st dec reasons comment user]. cbn in Hstage.
  destruct Hstage as [-> | ->]; destruct dec; reflexivity.
Qed.

(** The two guards of [decideOn], read off the stage of the proposal. *)
Lemma terminal_guard (st : ProposalStage) :
  bool_decide (st = APPROVED) || bool_decide (st = REJECTED) = Spec.terminal st.
Proof. destruct st; reflexivity. Qed.

(** Every run of the decision handler is one of the runs of [DecisionRun]. *)
Lemma decisionHandler_run {S : Type} `{IStorage S} proposalId body (s : S) :
  DecisionRun proposalId body s
    (run internalError (decisionHandler proposalId body) s).
Proof.
  unfold decisionHandler.
  destruct (Zod.required insertDecisionSchema body) as [d|] eqn:Hparse.
  2: { now apply RunInvalid. }
  cbn [decideValidated run].
  destruct (getProposalDetail proposalId s) as [[proposal|]|] eqn:Hget.
  3: { now apply RunLookupFailed with (d := d). }
  2: { now apply RunNotFound with (d := d). }
  unfold decideOn. rewrite terminal_guard.
  destruct (Spec.terminal (ProposalDetail.stage proposal)) eqn:Hterminal.
  { now apply RunCompleted with (d := d). }
  case_bool_decide as Hstage.
  { now apply RunStale. }
  cbn [run].
  destruct (createDecision proposalId d s) as [[decision|] s1] eqn:Hrecord.
  2: { now apply RunRecordFailed with (proposal := proposal). }
  pose proof (newStage_validated _ _ Hparse) as Hnew. rewrite Hnew. cbn [run].
  destruct (updateProposalStage _ _ s1) as [[u|] s2] eqn:Hupdate.
  - now eapply RunDecided; eauto.
  - now eapply RunStageFailed; eauto.
Qed.

Lemma stage_name_inj a b : stage_name a = stage_name b -> a = b.
Proof. destruct a, b; cbn; intros Heq; first [reflexivity | discriminate]. Qed.

(** A run that only reads performs no write. *)
Lemma read_only_calls proposalId :
  Forall (fun c => is_write c = false) [CallGetProposalDetail proposalId].
Proof. repeat constructor. Qed.

(** C9. The decision schema admits the claimed stages DOC_REVIEW and
    RISK_REVIEW only: a request that claims APPROVED, REJECTED or
    CHANGES_REQUESTED fails validation, is answered 400 "Invalid decision
    payload" before the proposal is even fetched, and no transition rule is
    evaluated. *)
Theorem unreviewable_claimed_stage_is_malformed
    {S : Type} `{IStorage S} (s : S) (proposalId : string)
    (body : option Json) (claimed : ProposalStage) :
  Spec.claimedStage body = Some (JStr (stage_name claimed)) ->
  claimed = APPROVED \/ claimed = REJECTED \/ claimed = CHANGES_REQUESTED ->
  Zod.required insertDecisionSchema body = None
  /\ decisionHandler proposalId body
     = Ret (respond 400 (Error "Invalid decision payload"))
  /\ run internalError (decisionHandler proposalId body) s
     = {| answer := respond 400 (Error "Invalid decision payload");
          store := s; calls := [] |}
  /\ (forall body' d, Zod.required insertDecisionSchema body' = Some d ->
        InsertDecision.stage d = DOC_REVIEW
        \/ InsertDecision.stage d = RISK_REVIEW).
Proof.
  intros Hclaimed Hstage.
  assert (Hnone : Zod.required insertDecisionSchema body = None).
  { destruct (Zod.required insertDecisionSchema body) as [d|] eqn:Hparse;
      [exfalso|reflexivity].
    apply insertDecisionSchema_stage in Hparse as [Hbody Hadmitted].
    rewrite Hclaimed in Hbody. injection Hbody as Hname.
    apply stage_name_inj in Hname. subst claimed.
    destruct Hadmitted as [Hd | Hd]; rewrite Hd in Hstage;
      intuition discriminate. }
  unfold decisionHandler. rewrite Hnone. repeat split.
  intros body' d Hparse. now apply insertDecisionSchema_stage in Hparse.
Qed.

Lemma unreviewable_claimed_stage_is_malformed_witness :
  Zod.required insertDecisionSchema
    (Sample.decision_body "CHANGES_REQUESTED" "APPROVE") = None
  /\ decisionHandler "P0" (Sample.decision_body "CHANGES_REQUESTED" "APPROVE")
     = Ret (respond 400 (Error "Invalid decision payload"))
  /\ run internalError
       (decisionHandler "P0"
          (Sample.decision_body "CHANGES_REQUESTED" "APPROVE"))
       (Sample.store_at CHANGES_REQUESTED)
     = {| answer := respond 400 (Error "Invalid decision payload");
          store := Sample.store_at CHANGES_REQUESTED; calls := [] |}
  /\ (forall body' d, Zod.required insertDecisionSchema body' = Some d ->
        InsertDecision.stage d = DOC_REVIEW
        \/ InsertDecision.stage d = RISK_REVIEW).
Proof.
  apply (unreviewable_claimed_stage_is_malformed
           (Sample.store_at CHANGES_REQUESTED) "P0"
           (Sample.decision_body "CHANGES_REQUESTED" "APPROVE")
           CHANGES_REQUESTED).
  - reflexivity.
  - right. right. reflexivity.
Defined.

(** C2. A proposal at APPROVED or REJECTED accepts no decision: whatever
    the request claims and decides, the answer is a 400, no decision is
    recorded, no write reaches the storage and the proposal read back is the
    one that was there. *)
Theorem terminal_stage_rejects_every_decision
    {S : Type} `{IStorage S} (s : S) (proposalId : string)
    (body : option Json) (d : InsertDecision.t) (proposal : ProposalDetail.t) :
  getProposalDetail proposalId s = Returned (Some proposal) ->
  Spec.terminal (ProposalDetail.stage proposal) = true ->
  let r := run internalError (decisionHandler proposalId body) s in
  decideOn proposalId d proposal
  = Ret (respond 400 (CompletedProposal (ProposalDetail.stage proposal)))
  /\ status (answer r) = 400
  /\ (reply (answer r) = Error "Invalid decision payload"
      \/ reply (answer r) = CompletedProposal (ProposalDetail.stage proposal))
  /\ Forall (fun c => is_write c = false) (calls r)
  /\ store r = s
  /\ getProposalDetail proposalId (store r) = Returned (Some proposal).
Proof.
  intros Hget Hterminal.
  assert (Hguard : forall d', decideOn proposalId d' proposal
            = Ret (respond 400
                     (CompletedProposal (ProposalDetail.stage proposal)))).
  { intros d'. unfold decideOn.
    destruct (ProposalDetail.stage proposal); try discriminate; reflexivity. }
  cbv zeta. split; [apply Hguard|].
  unfold decisionHandler.
  destruct (Zod.required insertDecisionSchema body) as [d'|].
  - cbn [decideValidated run]. rewrite Hget, Hguard. cbn.
    repeat split; auto using read_only_calls.
  - cbn. repeat split; auto.
Qed.

Lemma terminal_stage_rejects_every_decision_witness :
  let r := run internalError
             (decisionHandler "P0" (Sample.decision_body "RISK_REVIEW" "REJECT"))
             (Sample.store_at APPROVED) in
  decideOn "P0" (Sample.decision_data APPROVED REQUEST_CHANGES)
    (Sample.detail_at APPROVED)
  = Ret (respond 400 (CompletedProposal APPROVED))
  /\ status (answer r) = 400
  /\ (reply (answer r) = Error "Invalid decision payload"
      \/ reply (answer r) = CompletedProposal APPROVED)
  /\ Forall (fun c => is_write c = false) (calls r)
  /\ store r = Sample.store_at APPROVED
  /\ getProposalDetail "P0" (store r)
     = Returned (Some (Sample.detail_at APPROVED)).
Proof.
  apply (terminal_stage_rejects_every_decision
           (Sample.store_at APPROVED) "P0"
           (Sample.decision_body "RISK_REVIEW" "REJECT")
           (Sample.decision_data APPROVED REQUEST_CHANGES)
           (Sample.detail_at APPROVED)).
  - vm_compute. reflexivity.
  - reflexivity.
Defined.

(** C3. At a non-terminal stage S a decision that claims another stage is
    refused by the stale-decision guard: the validated handler answers 400
    with both stages, and for every body whose claimed stage is not S the run
    answers 400, writes nothing and leaves the proposal at S. *)
Theorem stale_decision_rejected
    {S : Type} `{IStorage S} (s : S) (proposalId : string)
    (body : option Json) (d : InsertDecision.t) (proposal : ProposalDetail.t) :
  getProposalDetail proposalId s = Returned (Some proposal) ->
  Spec.terminal (ProposalDetail.stage proposal) = false ->
  InsertDecision.stage d <> ProposalDetail.stage proposal ->
  Spec.claimedStage body
  <> Some (JStr (stage_name (ProposalDetail.stage proposal))) ->
  let r := run internalError (decisionHandler proposalId body) s in
  decideOn proposalId d proposal
  = Ret (respond 400
           (StageMismatch (ProposalDetail.stage proposal)
              (InsertDecision.stage d)))
  /\ status (answer r) = 400
  /\ (reply (answer r) = Error "Invalid decision payload"
      \/ exists claimed,
           claimed <> ProposalDetail.stage proposal
           /\ reply (answer r)
              = StageMismatch (ProposalDetail.stage proposal) claimed)
  /\ Forall (fun c => is_write c = false) (calls r)
  /\ store r = s
  /\ getProposalDetail proposalId (store r) = Returned (Some proposal).
Proof.
  intros Hget Hterminal Hstale Hclaimed.
  assert (Hguard : forall d',
            InsertDecision.stage d' <> ProposalDetail.stage proposal ->
            decideOn proposalId d' proposal
            = Ret (respond 400
                     (StageMismatch (ProposalDetail.stage proposal)
                        (InsertDecision.stage d')))).
  { intros d' Hne. unfold decideOn.
    replace (bool_decide (ProposalDetail.stage proposal = APPROVED)
             || bool_decide (ProposalDetail.stage proposal = REJECTED))
      with false
      by (destruct (ProposalDetail.stage proposal);
          first [discriminate | reflexivity]).
    rewrite bool_decide_eq_true_2; [reflexivity | congruence]. }
  cbv zeta. split; [now apply Hguard|].
  unfold decisionHandler.
  destruct (Zod.required insertDecisionSchema body) as [d'|] eqn:Hparse.
  - apply insertDecisionSchema_stage in Hparse as [Hbody _].
    assert (Hne : InsertDecision.stage d' <> ProposalDetail.stage proposal).
    { intros Heq. apply Hclaimed. now rewrite Hbody, Heq. }
    cbn [decideValidated run]. rewrite Hget, (Hguard d' Hne). cbn.
    repeat split; eauto using read_only_calls.
  - cbn. repeat split; auto.
Qed.

Lemma stale_decision_rejected_witness :
  let r := run internalError
             (decisionHandler "P0" (Sample.decision_body "RISK_REVIEW" "APPROVE"))
             (Sample.store_at DOC_REVIEW) in
  decideOn "P0" (Sample.decision_data RISK_REVIEW APPROVE)
    (Sample.detail_at DOC_REVIEW)
  = Ret (respond 400 (StageMismatch DOC_REVIEW RISK_REVIEW))
  /\ status (answer r) = 400
  /\ (reply (answer r) = Error "Invalid decision payload"
      \/ exists claimed,
           claimed <> DOC_REVIEW
           /\ reply (answer r) = StageMismatch DOC_REVIEW claimed)
  /\ Forall (fun c => is_write c = false) (calls r)
  /\ store r = Sample.store_at DOC_REVIEW
  /\ getProposalDetail "P0" (store r)
     = Returned (Some (Sample.detail_at DOC_REVIEW)).
Proof.
  apply (stale_decision_rejected
           (Sample.store_at DOC_REVIEW) "P0"
           (Sample.decision_body "RISK_REVIEW" "APPROVE")
           (Sample.decision_data RISK_REVIEW APPROVE)
           (Sample.detail_at DOC_REVIEW)).
  - vm_compute. reflexivity.
  - reflexivity.
  - discriminate.
  - discriminate.
Defined.

(** C1. A decision request that is answered 400 (malformed payload,
    terminal-state guard, stale-stage guard; the invalid-approval answer
    cannot occur) has made no write call: no Decision was created, the store
    is the one the request found, and the proposal and its decision history
    read back unchanged. *)
Theorem rejected_decision_changes_nothing
    {S : Type} `{IStorage S} (s : S) (proposalId : string)
    (body : option Json) :
  let r := run internalError (decisionHandler proposalId body) s in
  status (answer r) = 400 ->
  Forall (fun c => is_write c = false) (calls r)
  /\ store r = s
  /\ getProposalDetail proposalId (store r) = getProposalDetail proposalId s
  /\ reply (answer r) <> Error "Invalid approval stage"
  /\ reply (answer r) <> Error "Invalid decision type".
Proof.
  cbv zeta. intros Hstatus.
  destruct (decisionHandler_run proposalId body s); cbn in *;
    try discriminate;
    repeat split; auto using read_only_calls; discriminate.
Qed.

Lemma rejected_decision_changes_nothing_witness :
  let r := run internalError
             (decisionHandler "P0" (Sample.decision_body "DOC_REVIEW" "APPROVE"))
             (Sample.store_at RISK_REVIEW) in
  Forall (fun c => is_write c = false) (calls r)
  /\ store r = Sample.store_at RISK_REVIEW
  /\ getProposalDetail "P0" (store r)
     = getProposalDetail "P0" (Sample.store_at RISK_REVIEW)
  /\ reply (answer r) <> Error "Invalid approval stage"
  /\ reply (answer r) <> Error "Invalid decision type".
Proof.
  apply (rejected_decision_changes_nothing
           (Sample.store_at RISK_REVIEW) "P0"
           (Sample.decision_body "DOC_REVIEW" "APPROVE")).
  vm_compute. reflexivity.
Defined.

(** C4. For a decision that passes the terminal-state and stale-stage
    guards the stage computed by the handler is the one of the reference
    transition table: reject gives REJECTED and request-changes gives
    CHANGES_REQUESTED from every non-terminal stage, approve gives
    RISK_REVIEW from DOC_REVIEW and APPROVED from RISK_REVIEW, and approve
    from another stage is answered 400 "Invalid approval stage". *)
Theorem newStage_follows_transition_table
    (proposalId : string) (d : InsertDecision.t) (proposal : ProposalDetail.t) :
  Spec.terminal (ProposalDetail.stage proposal) = false ->
  InsertDecision.stage d = ProposalDetail.stage proposal ->
  newStage d
  = match Spec.transition (ProposalDetail.stage proposal)
            (InsertDecision.decision d) with
    | Some stage' => inr stage'
    | None => inl (respond 400 (Error "Invalid approval stage"))
    end
  /\ decideOn proposalId d proposal
     = CreateDecision proposalId d (fun decision =>
         match Spec.transition (ProposalDetail.stage proposal)
                 (InsertDecision.decision d) with
         | Some stage' =>
             UpdateProposalStage proposalId stage'
               (Ret (respond 201
                       (DecisionCreated (Decision.decisionId decision)
                          (ProposalDetail.stage proposal) stage'
                          (InsertDecision.decision d))))
         | None => Ret (respond 400 (Error "Invalid approval stage"))
         end).
Proof.
  destruct d as [claimed decision reasons comment user].
  destruct proposal as [id current submitted payload history].
  cbn [InsertDecision.stage InsertDecision.decision ProposalDetail.stage].
  intros Hterminal ->.
  destruct current; try discriminate Hterminal;
    destruct decision; split; reflexivity.
Qed.

Lemma newStage_follows_transition_table_witness :
  newStage (Sample.decision_data CHANGES_REQUESTED APPROVE)
  = inl (respond 400 (Error "Invalid approval stage"))
  /\ decideOn "P0" (Sample.decision_data CHANGES_REQUESTED APPROVE)
       (Sample.detail_at CHANGES_REQUESTED)
     = CreateDecision "P0" (Sample.decision_data CHANGES_REQUESTED APPROVE)
         (fun decision => Ret (respond 400 (Error "Invalid approval stage"))).
Proof.
  apply (newStage_follows_transition_table "P0"
           (Sample.decision_data CHANGES_REQUESTED APPROVE)
           (Sample.detail_at CHANGES_REQUESTED)); reflexivity.
Defined.




(** ** Properties of the normalisers *)

Lemma truthy_nonempty (s : string) : truthy s = true <-> s <> "".
Proof. destruct s; cbn; split; congruence. Qed.

Lemma str_or_nonempty (s d : string) : s <> "" -> str_or (Some s) d = s.
Proof. intros Hs. cbn. now destruct s. Qed.

Lemma str_or_missing (a : option string) (d : string) :
  a = None \/ a = Some "" -> str_or a d = d.
Proof. now intros [-> | ->]. Qed.

(** [x || d] is what [(a || d) || d] is. *)
Lemma str_or_again (a : option string) (d : string) :
  str_or (Some (str_or a d)) d = str_or a d.
Proof. destruct a as [[|c r]|]; cbn; now destruct d. Qed.

Lemma str_or_default (a : option string) :
  str_or a "" = default "" a.
Proof. now destruct a as [[|c r]|]. Qed.

(** C6 (as written, refuted). A member that gives the empty string as its
    identifier passes validation, and its normalised identifier is the
    synthesised ["M1"], not the identifier that was given. *)
Lemma empty_memberId_is_replaced :
  exists member,
    memberSchema Sample.anonymous_member = Some member
    /\ Member.memberId member = Some ""
    /\ NormalizedMember.memberId (normalizeMember member 0) = "M1"
    /\ NormalizedMember.memberId (normalizeMember member 0)
       <> Spec.memberId_as_written member 0.
Proof.
  eexists. split; [reflexivity|]. repeat split. discriminate.
Qed.

(** C6 (amended). Member normalisation returns: the given identifier when it
    is present and not empty, else ["M"] followed by the position plus one;
    the single name when present and not empty, else the first and last names
    joined by one space and trimmed; [loanAmount] when present, else
    [requestedAmount], else 0; every other field as given, [requestedAmount]
    included. The member Bo Lee with requested amount 50 gets the name
    ["Bo Lee"] and the loan amount 50. *)
Theorem normalizeMember_fields (member : Member.t) (index : nat) :
  let n := normalizeMember member index in
  (forall id, Member.memberId member = Some id -> id <> "" ->
              NormalizedMember.memberId n = id)
  /\ (Member.memberId member = None \/ Member.memberId member = Some "" ->
      NormalizedMember.memberId n = "M" ++ nat_to_string (index + 1))
  /\ (forall name, Member.name member = Some name -> name <> "" ->
                   NormalizedMember.name n = name)
  /\ (Member.name member = None \/ Member.name member = Some "" ->
      NormalizedMember.name n = Spec.joined_name member)
  /\ (forall amount, Member.loanAmount member = Some amount ->
                     NormalizedMember.loanAmount n = amount)
  /\ (forall amount, Member.loanAmount member = None ->
                     Member.requestedAmount member = Some amount ->
                     NormalizedMember.loanAmount n = amount)
  /\ (Member.loanAmount member = None ->
      Member.requestedAmount member = None ->
      NormalizedMember.loanAmount n = 0%float)
  /\ (NormalizedMember.firstName n = Member.firstName member
      /\ NormalizedMember.lastName n = Member.lastName member
      /\ NormalizedMember.requestedAmount n = Member.requestedAmount member
      /\ NormalizedMember.phone n = Member.phone member
      /\ NormalizedMember.idNumber n = Member.idNumber member
      /\ NormalizedMember.evidencePhotos n = Member.evidencePhotos member
      /\ NormalizedMember.signature n = Member.signature member
      /\ NormalizedMember.isLeader n = Member.isLeader member)
  /\ (exists bo,
        memberSchema Sample.bo_member = Some bo
        /\ NormalizedMember.name (normalizeMember bo 0) = "Bo Lee"
        /\ NormalizedMember.loanAmount (normalizeMember bo 0) = 50%float
        /\ NormalizedMember.requestedAmount (normalizeMember bo 0)
           = Some 50%float
        /\ NormalizedMember.memberId (normalizeMember bo 0) = "M1"
        /\ NormalizedMember.memberId (normalizeMember bo 9) = "M10").
Proof.
  cbv zeta. unfold normalizeMember, Spec.joined_name. cbn.
  repeat match goal with |- _ /\ _ => split end.
  - intros id -> Hid. now apply str_or_nonempty.
  - apply str_or_missing.
  - intros name -> Hname. now apply str_or_nonempty.
  - intros Hname. rewrite (str_or_missing _ _ Hname).
    now rewrite !str_or_default.
  - now intros amount ->.
  - now intros amount -> ->.
  - now intros -> ->.
  - reflexivity.
  - reflexivity.
  - reflexivity.
  - reflexivity.
  - reflexivity.
  - reflexivity.
  - reflexivity.
  - reflexivity.
  - eexists. split; [reflexivity|]. repeat split.
Qed.

(** [find] returns the first element that satisfies the test. *)
Lemma find_first {A} (p : A -> bool) (l : list A) (i : nat) (x : A) :
  l !! i = Some x -> p x = true ->
  (forall j y, j < i -> l !! j = Some y -> p y = false) ->
  find p l = Some x.
Proof.
  revert i. induction l as [|a l IH]; intros i Hi Hx Hbefore; [discriminate|].
  destruct i as [|i]; cbn in *.
  - injection Hi as ->. now rewrite Hx.
  - rewrite (Hbefore 0 a); [|lia|reflexivity].
    apply (IH i); auto. intros j y Hj Hy. apply (Hbefore (S j)); [lia|exact Hy].
Qed.

Lemma find_nowhere {A} (p : A -> bool) (l : list A) :
  (forall y, y ∈ l -> p y = false) -> find p l = None.
Proof.
  induction l as [|a l IH]; intros Hall; [reflexivity|]. cbn.
  rewrite (Hall a); [|left]. apply IH. intros y Hy. apply Hall. now right.
Qed.

(** The member [normalizeProposalPayload] takes for the leader. *)
Lemma leader_found (members : list NormalizedMember.t) (m : NormalizedMember.t) :
  Spec.leader members m ->
  match find (fun m => flag (NormalizedMember.isLeader m)) members with
  | Some flagged => Some flagged
  | None => head members
  end = Some m.
Proof.
  intros [(i & Hi & Hflag & Hbefore) | [Hnone Hfirst]].
  - now rewrite (find_first _ _ i m Hi Hflag Hbefore).
  - rewrite (find_nowhere _ _ Hnone). now destruct members.
Qed.

(** The sum of the loan amounts, from the left and from zero. *)
Lemma fold_loanAmounts (members : list NormalizedMember.t) (zero : float) :
  fold_left (fun sum m => (sum + NormalizedMember.loanAmount m)%float)
    members zero
  = fold_left PrimFloat.add (NormalizedMember.loanAmount <$> members) zero.
Proof.
  revert zero. induction members as [|m members IH]; intros zero;
    [reflexivity|]. cbn. apply IH.
Qed.

(** C5 (as written, refuted). A validated submission that gives empty strings
    for the group name and the leader name is stored with the derived label
    and with the name of its first member, and a submission whose first
    member has a blank name is stored with the leader ["Unknown"]: the
    normalised fields are not the ones the written precedence yields. *)
Lemma empty_names_are_replaced :
  (exists payload,
      proposalPayloadSchema Sample.unnamed = Some payload
      /\ ProposalPayload.groupName payload = Some ""
      /\ ProposalPayload.leaderName payload = Some ""
      /\ NormalizedProposalPayload.groupName (normalizeProposalPayload payload)
         = "Group G1"
      /\ NormalizedProposalPayload.groupName (normalizeProposalPayload payload)
         <> Spec.groupName_as_written payload
      /\ NormalizedProposalPayload.leaderName (normalizeProposalPayload payload)
         = "Ana"
      /\ NormalizedProposalPayload.leaderName (normalizeProposalPayload payload)
         <> Spec.leaderName_as_written payload
              (NormalizedProposalPayload.members
                 (normalizeProposalPayload payload)))
  /\ (exists payload,
        proposalPayloadSchema Sample.blank_leader = Some payload
        /\ NormalizedProposalPayload.leaderName
             (normalizeProposalPayload payload)
           = "Unknown"
        /\ NormalizedProposalPayload.leaderName
             (normalizeProposalPayload payload)
           <> Spec.leaderName_as_written payload
                (NormalizedProposalPayload.members
                   (normalizeProposalPayload payload))).
Proof.
  split; eexists; (split; [reflexivity|]); repeat split; discriminate.
Qed.

(** C5 (amended). In the normalised payload: the members are the input
    members, in order, each normalised at its position; the group name is the
    explicit one when present and not empty, else ["Group "] and the group
    id; the total is the explicit one when present, else the sum of the
    normalised loan amounts; the leader name is the explicit one when present
    and not empty, else the name of the leader (the first member flagged as
    leader, else the first member) when that name is not empty, else
    ["Unknown"]. The submission of Ana with loan amount 100 is validated and
    gets the total 100 and the leader name ["Ana"]. *)
Theorem normalizeProposalPayload_precedence (payload : ProposalPayload.t) :
  let n := normalizeProposalPayload payload in
  let members := NormalizedProposalPayload.members n in
  NormalizedProposalPayload.groupId n = ProposalPayload.groupId payload
  /\ length members = length (ProposalPayload.members payload)
  /\ (forall i m, ProposalPayload.members payload !! i = Some m ->
                  members !! i = Some (normalizeMember m i))
  /\ (forall name, ProposalPayload.groupName payload = Some name ->
                   name <> "" ->
                   NormalizedProposalPayload.groupName n = name)
  /\ (ProposalPayload.groupName payload = None
      \/ ProposalPayload.groupName payload = Some "" ->
      NormalizedProposalPayload.groupName n
      = "Group " ++ ProposalPayload.groupId payload)
  /\ (forall total, ProposalPayload.totalAmount payload = Some total ->
                    NormalizedProposalPayload.totalAmount n = total)
  /\ (ProposalPayload.totalAmount payload = None ->
      NormalizedProposalPayload.totalAmount n
      = fold_left PrimFloat.add (NormalizedMember.loanAmount <$> members)
          0%float)
  /\ (forall name, ProposalPayload.leaderName payload = Some name ->
                   name <> "" ->
                   NormalizedProposalPayload.leaderName n = name)
  /\ (ProposalPayload.leaderName payload = None
      \/ ProposalPayload.leaderName payload = Some "" ->
      (forall m, Spec.leader members m -> NormalizedMember.name m <> "" ->
                 NormalizedProposalPayload.leaderName n
                 = NormalizedMember.name m)
      /\ (forall m, Spec.leader members m -> NormalizedMember.name m = "" ->
                    NormalizedProposalPayload.leaderName n = "Unknown")
      /\ (members = [] ->
          NormalizedProposalPayload.leaderName n = "Unknown"))
  /\ (option_map normalizeProposalPayload (proposalPayloadSchema Sample.ana)
      = Some Sample.ana_payload
      /\ NormalizedProposalPayload.totalAmount Sample.ana_payload = 100%float
      /\ NormalizedProposalPayload.leaderName Sample.ana_payload = "Ana").
Proof.
  cbv zeta. unfold normalizeProposalPayload. cbn.
  repeat match goal with |- _ /\ _ => split end.
  - reflexivity.
  - apply length_imap.
  - intros i m Hm. now rewrite list_lookup_imap, Hm.
  - intros name -> Hname. now apply str_or_nonempty.
  - apply str_or_missing.
  - now intros total ->.
  - intros ->. apply fold_loanAmounts.
  - intros name -> Hname. now apply str_or_nonempty.
  - intros Hmissing. rewrite (str_or_missing _ _ Hmissing).
    repeat match goal with |- _ /\ _ => split end.
    + intros m Hleader Hname. rewrite (leader_found _ _ Hleader).
      now apply str_or_nonempty.
    + intros m Hleader Hname. rewrite (leader_found _ _ Hleader).
      cbn. now rewrite Hname.
    + now intros ->.
  - reflexivity.
  - reflexivity.
  - reflexivity.
Qed.

(** Normalising a normalised member at the same position changes nothing. *)
Lemma normalizeMember_again (member : Member.t) (index : nat) :
  normalizeMember (member_of (normalizeMember member index)) index
  = normalizeMember member index.
Proof.
  unfold normalizeMember, member_of. cbn -[str_or trim].
  now rewrite !str_or_again.
Qed.

Lemma normalizeMembers_again (members : list Member.t) :
  imap (fun i m => normalizeMember m i)
    (member_of <$> imap (fun i m => normalizeMember m i) members)
  = imap (fun i m => normalizeMember m i) members.
Proof.
  apply list_eq. intros i.
  rewrite !list_lookup_imap, list_lookup_fmap, list_lookup_imap.
  destruct (members !! i) as [m|]; [|reflexivity].
  cbn. now rewrite normalizeMember_again.
Qed.

(** C8. Normalisation is idempotent: normalising an already normalised
    payload gives that payload again, with the same members, the same total
    and the same leader name. *)
Theorem normalizeProposalPayload_idempotent (payload : ProposalPayload.t) :
  normalizeProposalPayload (payload_of (normalizeProposalPayload payload))
  = normalizeProposalPayload payload
  /\ NormalizedProposalPayload.totalAmount
       (normalizeProposalPayload (payload_of (normalizeProposalPayload payload)))
     = NormalizedProposalPayload.totalAmount (normalizeProposalPayload payload)
  /\ NormalizedProposalPayload.leaderName
       (normalizeProposalPayload (payload_of (normalizeProposalPayload payload)))
     = NormalizedProposalPayload.leaderName (normalizeProposalPayload payload)
  /\ NormalizedProposalPayload.members
       (normalizeProposalPayload (payload_of (normalizeProposalPayload payload)))
     = NormalizedProposalPayload.members (normalizeProposalPayload payload).
Proof.
  assert (Hsame :
    normalizeProposalPayload (payload_of (normalizeProposalPayload payload))
    = normalizeProposalPayload payload).
  { unfold normalizeProposalPayload at 1. unfold payload_of.
    cbn [ProposalPayload.members ProposalPayload.groupId
         ProposalPayload.groupName ProposalPayload.leaderName
         ProposalPayload.leaderPhone ProposalPayload.totalAmount
         ProposalPayload.contractText ProposalPayload.evidencePhotos
         ProposalPayload.formData default].
    unfold normalizeProposalPayload.
    cbn [NormalizedProposalPayload.members NormalizedProposalPayload.groupId
         NormalizedProposalPayload.groupName
         NormalizedProposalPayload.leaderName
         NormalizedProposalPayload.leaderPhone
         NormalizedProposalPayload.totalAmount
         NormalizedProposalPayload.contractText
         NormalizedProposalPayload.evidencePhotos
         NormalizedProposalPayload.formData].
    rewrite normalizeMembers_again, !str_or_again. reflexivity. }
  now rewrite Hsame.
Qed.

(** ** Properties of the submit handler *)

(** C7 (as written, refuted). A payload that passes validation and carries an
    object under [payload] is, when submitted directly, read as an envelope
    of that object: its own envelope is stored and answered 201, the payload
    itself is answered 400 and nothing is stored. *)
Lemma payload_property_makes_an_envelope :
  let enveloped :=
    run internalError (submitHandler (Some Cases.nested_envelope))
      MemStorage.empty in
  let direct :=
    run internalError (submitHandler (Some (JObj Cases.nested)))
      MemStorage.empty in
  is_Some (proposalPayloadSchema (JObj Cases.nested))
  /\ normalizedBodyOf (rawBodyOf (Some Cases.nested_envelope))
     = JObj Cases.nested
  /\ normalizedBodyOf (rawBodyOf (Some (JObj Cases.nested))) = JObj []
  /\ normalizedBodyOf (rawBodyOf (Some (JObj Cases.nested)))
     <> normalizedBodyOf (rawBodyOf (Some Cases.nested_envelope))
  /\ status (answer enveloped) = 201
  /\ length (calls enveloped) = 1
  /\ status (answer direct) = 400
  /\ calls direct = [].
Proof.
  cbv zeta. split; [eexists; reflexivity|].
  repeat split; try reflexivity. discriminate.
Qed.

(** C7 (amended). An envelope whose [payload] property is the object P and
    the direct submission of P, a payload object that has no object or array
    under a [payload] property of its own, give the validator the same
    candidate P. Hence the validation outcome, the storage calls and the
    persisted payload are those of P alone, the same for both submissions
    and independent of every other property of the envelope; a body without
    a [payload] property is its own candidate. *)
Theorem envelope_is_unwrapped
    {S : Type} `{IStorage S} (s : S)
    (envelope props : list (string * Json)) :
  assoc "payload" envelope = Some (JObj props) ->
  (forall nested, assoc "payload" props = Some nested ->
                  truthy_object nested = false) ->
  let enveloped := run internalError (submitHandler (Some (JObj envelope))) s in
  let direct := run internalError (submitHandler (Some (JObj props))) s in
  normalizedBodyOf (rawBodyOf (Some (JObj envelope))) = JObj props
  /\ normalizedBodyOf (rawBodyOf (Some (JObj props))) = JObj props
  /\ calls enveloped = calls direct
  /\ store enveloped = store direct
  /\ status (answer enveloped) = status (answer direct)
  /\ (status (answer direct) = 201 -> answer enveloped = answer direct)
  /\ calls direct
     = match proposalPayloadSchema (JObj props) with
       | Some data => [CallCreateProposal (normalizeProposalPayload data)]
       | None => []
       end
  /\ (proposalPayloadSchema (JObj props) = None ->
      status (answer direct) = 400 /\ store direct = s)
  /\ (forall body, get "payload" body = None -> normalizedBodyOf body = body).
Proof.
  intros Henvelope Hdirect. cbv zeta.
  assert (Hcandidate :
            normalizedBodyOf (rawBodyOf (Some (JObj envelope))) = JObj props).
  { unfold normalizedBodyOf, rawBodyOf. cbn. now rewrite Henvelope. }
  assert (Hitself :
            normalizedBodyOf (rawBodyOf (Some (JObj props))) = JObj props).
  { unfold normalizedBodyOf, rawBodyOf. cbn.
    destruct (assoc "payload" props) as [nested|] eqn:Hnested;
      [|reflexivity].
    now rewrite (Hdirect nested eq_refl). }
  assert (Hplain : forall body,
            get "payload" body = None -> normalizedBodyOf body = body).
  { intros body Hnone. unfold normalizedBodyOf. now rewrite Hnone. }
  split; [exact Hcandidate|]. split; [exact Hitself|].
  unfold submitHandler. rewrite Hcandidate, Hitself.
  destruct (proposalPayloadSchema (JObj props)) as [data|].
  - cbn [run].
    destruct (createProposal (normalizeProposalPayload data) s)
      as [[proposal|] s1]; cbn; repeat split; auto; discriminate.
  - cbn. repeat split; auto; discriminate.
Qed.

Lemma envelope_is_unwrapped_witness :
  let enveloped :=
    run internalError (submitHandler (Some Sample.bo_envelope))
      MemStorage.empty in
  let direct :=
    run internalError (submitHandler (Some Sample.bo_payload))
      MemStorage.empty in
  normalizedBodyOf (rawBodyOf (Some Sample.bo_envelope)) = Sample.bo_payload
  /\ normalizedBodyOf (rawBodyOf (Some Sample.bo_payload)) = Sample.bo_payload
  /\ calls enveloped = calls direct
  /\ store enveloped = store direct
  /\ status (answer enveloped) = status (answer direct)
  /\ (status (answer direct) = 201 -> answer enveloped = answer direct)
  /\ calls direct
     = match proposalPayloadSchema Sample.bo_payload with
       | Some data => [CallCreateProposal (normalizeProposalPayload data)]
       | None => []
       end
  /\ (proposalPayloadSchema Sample.bo_payload = None ->
      status (answer direct) = 400 /\ store direct = MemStorage.empty)
  /\ (forall body, get "payload" body = None -> normalizedBodyOf body = body).
Proof.
  apply (envelope_is_unwrapped MemStorage.empty
           [("proposalId", JStr "ignored"); ("payload", Sample.bo_payload)]
           [("groupId", JStr "G2"); ("members", JArr [Sample.bo_member])]).
  - reflexivity.
  - intros nested Hnested. discriminate Hnested.
Defined.

(** ** A proposal through the review, on the in-memory repository *)

(** Ana's submission is stored at DOC_REVIEW; two approvals take it to
    RISK_REVIEW and to APPROVED, each leaving its decision in the history;
    after that a further decision is refused and changes nothing. *)
Example review_of_a_proposal :
  let submitted :=
    run internalError (submitHandler (Some Sample.ana)) MemStorage.empty in
  let reviewed :=
    run internalError
      (decisionHandler "P0" (Sample.decision_body "DOC_REVIEW" "APPROVE"))
      (store submitted) in
  let approved :=
    run internalError
      (decisionHandler "P0" (Sample.decision_body "RISK_REVIEW" "APPROVE"))
      (store reviewed) in
  let late :=
    run internalError
      (decisionHandler "P0" (Sample.decision_body "RISK_REVIEW" "REJECT"))
      (store approved) in
  answer submitted = respond 201 (ProposalCreated "P0" DOC_REVIEW "0")
  /\ MemStorage.stage_of "P0" (store submitted) = Some DOC_REVIEW
  /\ MemStorage.stage_of "P0" (store reviewed) = Some RISK_REVIEW
  /\ answer approved
     = respond 201 (DecisionCreated "D2" RISK_REVIEW APPROVED APPROVE)
  /\ MemStorage.stage_of "P0" (store approved) = Some APPROVED
  /\ map Decision.stage (MemStorage.history_of "P0" (store approved))
     = [DOC_REVIEW; RISK_REVIEW]
  /\ answer late = respond 400 (CompletedProposal APPROVED)
  /\ store late = store approved.
Proof. vm_compute. repeat split. Qed.

(** ** Further properties of the schemas, the normalisers and the routes *)

(** *** The zod combinators, read both ways *)

Lemma optional_string o field :
  Zod.optional Zod.string_ o = Some field <-> o = JStr <$> field.
Proof.
  destruct o as [[]|], field; cbn; split; intros Heq;
    first [discriminate | congruence].
Qed.

Lemma optional_boolean o field :
  Zod.optional Zod.boolean_ o = Some field <-> o = JBool <$> field.
Proof.
  destruct o as [[]|], field; cbn; split; intros Heq;
    first [discriminate | congruence].
Qed.

Lemma number_sound j n :
  Zod.number_ j = Some n <-> j = JNum n /\ PrimFloat.is_nan n = false.
Proof.
  destruct j as [| |x| | |]; cbn; try (split; [discriminate | intros [[=] _]]).
  destruct (PrimFloat.is_nan x) eqn:Hnan; split.
  - discriminate.
  - intros [[= ->] Hn]. congruence.
  - intros [= <-]. now split.
  - intros [[= ->] _]. reflexivity.
Qed.

Lemma optional_number o field :
  Zod.optional Zod.number_ o = Some field
  <-> o = JNum <$> field
      /\ forall n, field = Some n -> PrimFloat.is_nan n = false.
Proof.
  destruct o as [j|], field as [x|]; cbn.
  - destruct (Zod.number_ j) as [n|] eqn:Hj; cbn.
    + apply number_sound in Hj as [-> Hnan]. split.
      * intros [= <-]. split; [reflexivity|]. now intros ? [= <-].
      * now intros [[= ->] _].
    + split; [discriminate|]. intros [[= ->] Hnan].
      assert (Zod.number_ (JNum x) = Some x) as Hok
        by (apply number_sound; auto). congruence.
  - destruct (Zod.number_ j); cbn; split;
      first [discriminate | intros [[=] _]].
  - split; [discriminate | intros [[=] _]].
  - split; [|reflexivity]. intros _. split; [reflexivity | intros ? [=]].
Qed.

Lemma all_strings items l :
  Zod.all Zod.string_ items = Some l <-> items = JStr <$> l.
Proof.
  revert l. induction items as [|j items IH]; intros l; cbn.
  - destruct l; cbn; split; intros Heq;
      first [discriminate | reflexivity].
  - destruct j; cbn; try (split; [discriminate | destruct l; discriminate]).
    destruct (Zod.all Zod.string_ items) as [r|] eqn:Hall.
    + split.
      * intros [= <-]. cbn. f_equal. now apply IH.
      * destruct l as [|x l]; [discriminate|]. cbn. intros [= -> Hitems].
        apply IH in Hitems. congruence.
    + split; [discriminate|]. destruct l as [|x l]; [discriminate|].
      cbn. intros [= -> Hitems]. apply IH in Hitems. discriminate.
Qed.

Lemma optional_strings o field :
  Zod.optional (Zod.array_ Zod.string_) o = Some field
  <-> o = (fun l => JArr (JStr <$> l)) <$> field.
Proof.
  destruct o as [j|], field as [l|]; cbn;
    try (split; intros Heq; first [discriminate | congruence]).
  - destruct j; cbn; try (split; discriminate).
    destruct (Zod.all Zod.string_ items) as [r|] eqn:Hall; cbn.
    + apply all_strings in Hall. subst items. split.
      * now intros [= <-].
      * intros [= Heq].
        assert (Zod.all Zod.string_ (JStr <$> r) = Some r) as Hr
          by now apply all_strings.
        assert (Zod.all Zod.string_ (JStr <$> r) = Some l) as Hl
          by now apply all_strings.
        congruence.
    + split; [discriminate|]. intros [= Heq].
      apply all_strings in Heq. congruence.
  - destruct j; cbn; try (split; discriminate).
    destruct (Zod.all Zod.string_ items); cbn; split; discriminate.
Qed.

(** [.refine(check)] keeps the value and requires the check. *)
Lemma refine_sound {A} (check : A -> bool) a b :
  Zod.refine check a = Some b <-> a = b /\ check a = true.
Proof.
  unfold Zod.refine. destruct (check a); split;
    first [discriminate | intros [= ->]; now split | intros [-> _]; reflexivity
          | intros [_ [=]] ].
Qed.

(** Turn the parsed properties of a hypothesis into equations on the body,
    and back for the goal. *)
Ltac read_fields :=
  repeat match goal with
    | H : Zod.optional Zod.string_ _ = Some _ |- _ =>
        apply optional_string in H
    | H : Zod.optional Zod.number_ _ = Some _ |- _ =>
        apply optional_number in H
    | H : Zod.optional Zod.boolean_ _ = Some _ |- _ =>
        apply optional_boolean in H
    | H : Zod.optional (Zod.array_ Zod.string_) _ = Some _ |- _ =>
        apply optional_strings in H
    end.

Ltac write_field H lem :=
  apply lem in H; rewrite H; cbn [mbind option_bind].

(** [memberSchema] accepts exactly the objects that hold a member. *)
Lemma memberSchema_member v m :
  memberSchema v = Some m <-> Reflects.member v m.
Proof.
  unfold Reflects.member, Reflects.is_string, Reflects.is_number,
    Reflects.is_boolean, Reflects.is_strings.
  split.
  - unfold memberSchema. destruct v as [| | | | |props]; try discriminate.
    intros Hparse. cbn [get]. simplify_option_eq.
    repeat match goal with
      | H : Zod.refine _ _ = Some _ |- _ =>
          apply refine_sound in H as [? ?]; subst
      end.
    read_fields. cbn. intuition eauto.
  - intros ([props ->] & Hid & Hname & Hfirst & Hlast & Hloan & Hreq & Hphone
            & Hnum & Hphotos & Hsig & Hleader & Hnamed & Hamount).
    unfold memberSchema.
    write_field Hid optional_string. write_field Hname optional_string.
    write_field Hfirst optional_string. write_field Hlast optional_string.
    write_field Hloan optional_number. write_field Hreq optional_number.
    write_field Hphone optional_string. write_field Hnum optional_string.
    write_field Hphotos optional_strings. write_field Hsig optional_string.
    write_field Hleader optional_boolean.
    destruct m. cbn in Hnamed, Hamount |- *.
    unfold Zod.refine. cbn. rewrite Hnamed. cbn. now rewrite Hamount.
Qed.

(** [z.array(p)] accepts an array exactly when [p] accepts every element. *)
Lemma all_Forall2 {A} (p : Zod.parser A) items l :
  Zod.all p items = Some l <-> Forall2 (fun j a => p j = Some a) items l.
Proof.
  revert l. induction items as [|j items IH]; intros l; cbn.
  - split.
    + intros [= <-]. constructor.
    + intros Hall. inversion Hall. reflexivity.
  - destruct (p j) as [a|] eqn:Hj.
    + destruct (Zod.all p items) as [r|] eqn:Hall.
      * split.
        -- intros [= <-]. constructor; [exact Hj | now apply IH].
        -- intros Hl. inversion Hl as [|? b ? l' Hb Hrest]; subst.
           apply IH in Hrest. congruence.
      * split; [discriminate|].
        intros Hl. inversion Hl as [|? b ? l' Hb Hrest]; subst.
        apply IH in Hrest. discriminate.
    + split; [discriminate|].
      intros Hl. inversion Hl as [|? b ? l' Hb Hrest]; subst. congruence.
Qed.

(** The [members] property: a non-empty array of valid members. *)
Lemma members_sound o members :
  Zod.required (Zod.array_ memberSchema) o ≫= Zod.min1 = Some members
  <-> exists items,
        o = Some (JArr items)
        /\ Forall2 Reflects.member items members
        /\ items <> [].
Proof.
  split.
  - destruct o as [[| | | |items|]|]; try discriminate. cbn.
    destruct (Zod.all memberSchema items) as [l|] eqn:Hall; [|discriminate].
    cbn. destruct l as [|m l]; [discriminate|]. intros [= <-].
    apply all_Forall2 in Hall. exists items. split; [reflexivity|]. split.
    + eapply Forall2_impl; [exact Hall|]. intros j a. apply memberSchema_member.
    + inversion Hall. discriminate.
  - intros (items & -> & Hall & Hne). cbn.
    assert (Zod.all memberSchema items = Some members) as ->.
    { apply all_Forall2. eapply Forall2_impl; [exact Hall|].
      intros j a. apply memberSchema_member. }
    cbn. destruct members; [|reflexivity].
    inversion Hall. congruence.
Qed.

Lemma optional_record o field :
  Zod.optional Zod.record_any o = Some field
  <-> match field with
      | None => o = None
      | Some kept =>
          exists props, o = Some (JObj props) /\ kept = Zod.without_proto props
      end.
Proof.
  destruct o as [j|], field as [kept|]; cbn.
  - destruct j; cbn; try (split; [discriminate | intros (? & [=] & _)]).
    split.
    + intros [= <-]. eauto.
    + now intros (? & [= <-] & ->).
  - destruct j; cbn; split; discriminate.
  - split; [discriminate | intros (? & [=] & _)].
  - split; reflexivity.
Qed.

Lemma required_string o s :
  Zod.required Zod.string_ o = Some s <-> o = Some (JStr s).
Proof.
  destruct o as [[]|]; cbn; split; intros Heq;
    first [discriminate | congruence].
Qed.

(** X1. [proposalPayloadSchema] accepts exactly the objects with a string
    [groupId], a non-empty [members] array of valid members and well-typed
    optional properties, and the validated payload holds those properties
    unchanged, member for member and in order; of the [formData] object it
    holds every property but [__proto__]. *)
Theorem proposalPayloadSchema_accepts_exactly
    (v : Json) (p : ProposalPayload.t) :
  proposalPayloadSchema v = Some p <-> Reflects.payload v p.
Proof.
  unfold Reflects.payload, Reflects.is_string, Reflects.is_number,
    Reflects.is_strings, Reflects.is_record.
  split.
  - unfold proposalPayloadSchema.
    destruct v as [| | | | |props]; try discriminate.
    intros Hparse. simplify_option_eq.
    read_fields.
    repeat match goal with
      | H : Zod.required Zod.string_ _ = Some _ |- _ =>
          apply required_string in H
      | H : Zod.optional Zod.record_any _ = Some _ |- _ =>
          apply optional_record in H
      | H : Zod.required (Zod.array_ memberSchema) _ = Some ?l,
        H' : Zod.min1 ?l = Some _ |- _ =>
          assert (Zod.required (Zod.array_ memberSchema)
                    (get "members" (JObj props)) ≫= Zod.min1 = Some _)
            as Hm by (cbn [get]; rewrite H; exact H');
          clear H H'; apply members_sound in Hm
      end.
    cbn. intuition eauto.
  - intros ([props ->] & Hid & Hname & Hleader & Hphone & Hmembers & Htotal
            & Htext & Hphotos & Hform).
    unfold proposalPayloadSchema.
    write_field Hid required_string. write_field Hname optional_string.
    write_field Hleader optional_string. write_field Hphone optional_string.
    apply members_sound in Hmembers.
    destruct (Zod.required (Zod.array_ memberSchema) (get "members" (JObj props)))
      as [l|] eqn:Hl; [|discriminate].
    cbn [mbind option_bind] in Hmembers |- *. rewrite Hmembers.
    cbn [mbind option_bind].
    write_field Htotal optional_number. write_field Htext optional_string.
    write_field Hphotos optional_strings. write_field Hform optional_record.
    now destruct p.
Qed.

Lemma required_strings o l :
  Zod.required (Zod.array_ Zod.string_) o = Some l
  <-> o = Some (JArr (JStr <$> l)).
Proof.
  destruct o as [j|]; cbn; [|split; discriminate].
  destruct j; cbn; try (split; discriminate).
  split.
  - intros Hall. apply all_strings in Hall. congruence.
  - intros [= ->]. now apply all_strings.
Qed.

Lemma required_stage o st :
  Zod.required (enum stage_name [DOC_REVIEW; RISK_REVIEW]) o = Some st
  <-> o = Some (JStr (stage_name st))
      /\ (st = DOC_REVIEW \/ st = RISK_REVIEW).
Proof.
  split.
  - destruct o as [j|]; [|discriminate]. cbn.
    intros Henum. apply enum_sound in Henum as [-> Hin].
    split; [reflexivity|]. cbn in Hin. intuition.
  - intros [-> [-> | ->]]; reflexivity.
Qed.

Lemma required_decision o kind :
  Zod.required (enum decision_name [APPROVE; REJECT; REQUEST_CHANGES]) o
  = Some kind
  <-> o = Some (JStr (decision_name kind)).
Proof.
  split.
  - destruct o as [j|]; [|discriminate]. cbn.
    intros Henum. now apply enum_sound in Henum as [-> _].
  - intros ->. now destruct kind.
Qed.

(** X2. [insertDecisionSchema] accepts exactly the objects whose [stage] is
    DOC_REVIEW or RISK_REVIEW, whose [decision] is one of the three decision
    types, whose [reasons] is an array of strings, whose [userId] is a string
    and whose [comment], if any, is a string; the validated request holds
    those properties unchanged. *)
Theorem insertDecisionSchema_accepts_exactly
    (v : Json) (d : InsertDecision.t) :
  insertDecisionSchema v = Some d <-> Reflects.decision v d.
Proof.
  unfold Reflects.decision, Reflects.is_string. split.
  - unfold insertDecisionSchema.
    destruct v as [| | | | |props]; try discriminate.
    intros Hparse. simplify_option_eq.
    repeat match goal with
      | H : Zod.required (enum stage_name _) _ = Some _ |- _ =>
          apply required_stage in H as [? ?]
      | H : Zod.required (enum decision_name _) _ = Some _ |- _ =>
          apply required_decision in H
      | H : Zod.required (Zod.array_ Zod.string_) _ = Some _ |- _ =>
          apply required_strings in H
      | H : Zod.required Zod.string_ _ = Some _ |- _ =>
          apply required_string in H
      | H : Zod.optional Zod.string_ _ = Some _ |- _ =>
          apply optional_string in H
      end.
    cbn. intuition eauto.
  - intros ([props ->] & Hstage & Hadmitted & Hkind & Hreasons & Hcomment
            & Huser).
    unfold insertDecisionSchema.
    assert (Zod.required (enum stage_name [DOC_REVIEW; RISK_REVIEW])
              (get "stage" (JObj props)) = Some (InsertDecision.stage d))
      as -> by now apply required_stage.
    cbn [mbind option_bind].
    write_field Hkind required_decision. write_field Hreasons required_strings.
    write_field Hcomment optional_string. write_field Huser required_string.
    now destruct d.
Qed.

(** Decimal digits determine the number. *)
Lemma nat_to_string_inj a b : nat_to_string a = nat_to_string b -> a = b.
Proof.
  unfold nat_to_string. intros Heq.
  apply (f_equal NilEmpty.uint_of_string) in Heq.
  rewrite !NilEmpty.usu in Heq. injection Heq as Heq.
  now apply Unsigned.to_uint_inj.
Qed.

(** X3. [memberSchema] reads the eleven member properties only: two objects
    that agree on them validate alike, whatever else they carry and in
    whatever order. *)
Theorem memberSchema_reads_member_keys_only
    (props props' : list (string * Json)) :
  (forall k, In k Reflects.member_keys -> assoc k props = assoc k props') ->
  memberSchema (JObj props) = memberSchema (JObj props').
Proof.
  intros Hsame. unfold memberSchema. cbn [get].
  repeat match goal with
    | |- context [assoc ?k props] =>
        rewrite (Hsame k) by (cbn; tauto)
    end.
  reflexivity.
Qed.

Lemma memberSchema_reads_member_keys_only_witness :
  memberSchema (JObj Cases.bo_props)
  = memberSchema (JObj (("nickname", JStr "B") :: Cases.bo_props)).
Proof.
  apply (memberSchema_reads_member_keys_only Cases.bo_props
           (("nickname", JStr "B") :: Cases.bo_props)).
  intros k Hk. cbn in Hk.
  repeat (destruct Hk as [<- | Hk]; [reflexivity|]). destruct Hk.
Defined.

(** X4. [proposalPayloadSchema] reads the nine payload properties only: two
    objects that agree on them validate alike, so an unknown top-level
    property is dropped and never rejected. *)
Theorem proposalPayloadSchema_reads_payload_keys_only
    (props props' : list (string * Json)) :
  (forall k, In k Reflects.payload_keys -> assoc k props = assoc k props') ->
  proposalPayloadSchema (JObj props) = proposalPayloadSchema (JObj props').
Proof.
  intros Hsame. unfold proposalPayloadSchema. cbn [get].
  repeat match goal with
    | |- context [assoc ?k props] =>
        rewrite (Hsame k) by (cbn; tauto)
    end.
  reflexivity.
Qed.

Lemma proposalPayloadSchema_reads_payload_keys_only_witness :
  proposalPayloadSchema (JObj Cases.group_props)
  = proposalPayloadSchema
      (JObj (("proposalId", JStr "ignored") :: Cases.group_props)).
Proof.
  apply (proposalPayloadSchema_reads_payload_keys_only Cases.group_props
           (("proposalId", JStr "ignored") :: Cases.group_props)).
  intros k Hk. cbn in Hk.
  repeat (destruct Hk as [<- | Hk]; [reflexivity|]). destruct Hk.
Defined.

(** X5. The loan amount of a validated member, once normalised, is a number
    the body gave, [loanAmount] or in its absence [requestedAmount], and
    never NaN: after validation the fallback 0 of [normalizeMember] is not
    taken. *)
Theorem validated_loanAmount_is_given (v : Json) (m : Member.t) (index : nat) :
  memberSchema v = Some m ->
  exists amount,
    NormalizedMember.loanAmount (normalizeMember m index) = amount
    /\ PrimFloat.is_nan amount = false
    /\ (get "loanAmount" v = Some (JNum amount)
        \/ (get "loanAmount" v = None
            /\ get "requestedAmount" v = Some (JNum amount))).
Proof.
  intros Hparse. apply memberSchema_member in Hparse.
  destruct Hparse as (_ & _ & _ & _ & _ & [Hloan Hloan_ok] & [Hreq Hreq_ok]
                      & _ & _ & _ & _ & _ & _ & Hamount).
  unfold has_amount in Hamount. unfold normalizeMember. cbn.
  destruct (Member.loanAmount m) as [a|].
  - exists a. cbn. auto.
  - destruct (Member.requestedAmount m) as [a|]; [|discriminate].
    exists a. cbn. auto.
Qed.

Lemma validated_loanAmount_is_given_witness :
  exists amount,
    NormalizedMember.loanAmount (normalizeMember Cases.bo 0) = amount
    /\ PrimFloat.is_nan amount = false
    /\ (get "loanAmount" Sample.bo_member = Some (JNum amount)
        \/ (get "loanAmount" Sample.bo_member = None
            /\ get "requestedAmount" Sample.bo_member = Some (JNum amount))).
Proof.
  apply (validated_loanAmount_is_given Sample.bo_member Cases.bo 0).
  reflexivity.
Defined.

(** [a || d] is not empty when [d] is not. *)
Lemma str_or_named (a : option string) (d : string) :
  d <> "" -> str_or a d <> "".
Proof. intros Hd. destruct a as [[|c r]|]; cbn; congruence. Qed.

(** X7. A normalised payload never has an empty group name, an empty leader
    name or a member with an empty identifier, whatever the input. *)
Theorem normalized_names_never_empty (payload : ProposalPayload.t) :
  let n := normalizeProposalPayload payload in
  NormalizedProposalPayload.groupName n <> ""
  /\ NormalizedProposalPayload.leaderName n <> ""
  /\ Forall (fun m => NormalizedMember.memberId m <> "")
       (NormalizedProposalPayload.members n).
Proof.
  cbv zeta. unfold normalizeProposalPayload. cbn -[str_or].
  split; [|split].
  - apply str_or_named. discriminate.
  - apply str_or_named, str_or_named. discriminate.
  - apply Forall_forall. intros m Hm.
    apply elem_of_lookup_imap_1 in Hm as (i & x & -> & _).
    apply str_or_named. discriminate.
Qed.

(** X8. When no member gives an identifier (or gives the empty one), the
    synthesised identifiers of the normalised members are pairwise
    distinct. *)
Theorem synthesized_memberIds_distinct (payload : ProposalPayload.t) :
  Forall (fun m => Member.memberId m = None \/ Member.memberId m = Some "")
    (ProposalPayload.members payload) ->
  NoDup (NormalizedMember.memberId
           <$> NormalizedProposalPayload.members
                 (normalizeProposalPayload payload)).
Proof.
  intros Hnone. apply NoDup_alt. intros i j id.
  unfold normalizeProposalPayload. cbn -[str_or].
  rewrite !list_lookup_fmap, !list_lookup_imap.
  destruct (ProposalPayload.members payload !! i) as [a|] eqn:Ha;
    [|discriminate].
  destruct (ProposalPayload.members payload !! j) as [b|] eqn:Hb;
    [|discriminate].
  rewrite Forall_lookup in Hnone.
  pose proof (Hnone i a Ha) as Hida. pose proof (Hnone j b Hb) as Hidb.
  cbn -[str_or]. rewrite (str_or_missing _ _ Hida), (str_or_missing _ _ Hidb).
  intros [= <-] [= Heq]. apply nat_to_string_inj in Heq. lia.
Qed.

Lemma synthesized_memberIds_distinct_witness :
  NoDup (NormalizedMember.memberId
           <$> NormalizedProposalPayload.members
                 (normalizeProposalPayload
                    (Cases.group_of [Cases.ana; Cases.bo]))).
Proof.
  apply (synthesized_memberIds_distinct
           (Cases.group_of [Cases.ana; Cases.bo])).
  repeat (constructor; [left; reflexivity|]). constructor.
Defined.

(** A normalised member keeps its name form and always has an amount. *)
Lemma normalizeMember_valid_again (m : Member.t) (index : nat) :
  has_name m = true ->
  has_name (member_of (normalizeMember m index)) = true
  /\ has_amount (member_of (normalizeMember m index)) = true.
Proof.
  intros Hnamed. split; [|reflexivity].
  unfold has_name in *. cbn -[str_or trim].
  destruct (Member.name m) as [[|c r]|]; cbn -[trim] in *;
    first [reflexivity | rewrite Hnamed; apply orb_true_r].
Qed.

(** A validated member passed the two refinements. *)
Lemma memberSchema_refined (v : Json) (m : Member.t) :
  memberSchema v = Some m -> has_name m = true /\ has_amount m = true.
Proof.
  intros Hparse. apply memberSchema_member in Hparse.
  unfold Reflects.member in Hparse. tauto.
Qed.

(** What a validated body must have carried. *)
Lemma proposalPayloadSchema_needs (v : Json) (p : ProposalPayload.t) :
  proposalPayloadSchema v = Some p ->
  get "groupId" v = Some (JStr (ProposalPayload.groupId p))
  /\ exists items,
       items <> []
       /\ get "members" v = Some (JArr items)
       /\ Forall2 (fun j m => memberSchema j = Some m) items
            (ProposalPayload.members p).
Proof.
  unfold proposalPayloadSchema.
  destruct v as [| | | | |props]; try discriminate.
  intros Hparse. simplify_option_eq.
  match goal with
  | H : Zod.required Zod.string_ _ = Some _ |- _ =>
      apply required_string in H
  end.
  split; [assumption|].
  match goal with
  | H : Zod.required (Zod.array_ memberSchema) ?o = Some ?l,
    H' : Zod.min1 ?l = Some ?l' |- _ =>
      destruct o as [[| | | |items|]|]; try discriminate;
      cbn in H; apply all_Forall2 in H;
      destruct l as [|m l]; [discriminate|];
      injection H' as <-;
      exists items; split; [inversion H; discriminate|];
      split; [reflexivity | exact H]
  end.
Qed.

(** X6. The normalised form of a validated payload is valid again: it has as
    many members as the submission, at least one, and each of them still has
    a name form and an amount form. *)
Theorem stored_payload_is_valid_again (v : Json) (p : ProposalPayload.t) :
  proposalPayloadSchema v = Some p ->
  let stored := payload_of (normalizeProposalPayload p) in
  ProposalPayload.members stored <> []
  /\ length (ProposalPayload.members stored)
     = length (ProposalPayload.members p)
  /\ Forall (fun m => has_name m = true /\ has_amount m = true)
       (ProposalPayload.members stored).
Proof.
  intros Hparse. cbv zeta.
  apply proposalPayloadSchema_needs in Hparse
    as [_ (items & Hne & _ & Hitems)].
  unfold payload_of, normalizeProposalPayload.
  cbn [ProposalPayload.members NormalizedProposalPayload.members].
  repeat split.
  - intros Hnil. apply (f_equal length) in Hnil.
    rewrite length_fmap, length_imap in Hnil.
    apply Forall2_length in Hitems. destruct items; [congruence|].
    cbn in Hitems, Hnil. lia.
  - now rewrite length_fmap, length_imap.
  - apply Forall_lookup. intros i m Hm.
    rewrite list_lookup_fmap, list_lookup_imap in Hm.
    destruct (ProposalPayload.members p !! i) as [a|] eqn:Ha; [|discriminate].
    injection Hm as <-. apply normalizeMember_valid_again.
    destruct (Forall2_lookup_r _ _ _ _ _ Hitems Ha) as (j & _ & Hj).
    now apply memberSchema_refined in Hj.
Qed.

Lemma stored_payload_is_valid_again_witness :
  let stored :=
    payload_of (normalizeProposalPayload (Cases.group_of [Cases.ana])) in
  ProposalPayload.members stored <> []
  /\ length (ProposalPayload.members stored)
     = length (ProposalPayload.members (Cases.group_of [Cases.ana]))
  /\ Forall (fun m => has_name m = true /\ has_amount m = true)
       (ProposalPayload.members stored).
Proof.
  apply (stored_payload_is_valid_again Sample.ana
           (Cases.group_of [Cases.ana])).
  reflexivity.
Defined.

(** X10. A submission whose candidate payload has no string [groupId], or no
    non-empty [members] array, is answered 400 and reaches no storage
    call. *)
Theorem submit_rejects_without_group_or_members
    {S : Type} `{IStorage S} (s : S) (body : option Json) :
  let candidate := normalizedBodyOf (rawBodyOf body) in
  (forall g, get "groupId" candidate <> Some (JStr g))
  \/ (forall items, items <> [] -> get "members" candidate <> Some (JArr items)) ->
  let r := run internalError (submitHandler body) s in
  status (answer r) = 400 /\ calls r = [] /\ store r = s.
Proof.
  cbv zeta. intros Hmissing. unfold submitHandler.
  destruct (proposalPayloadSchema (normalizedBodyOf (rawBodyOf body)))
    as [data|] eqn:Hparse; [exfalso|now cbn].
  apply proposalPayloadSchema_needs in Hparse
    as [Hgroup (items & Hne & Hitems & _)].
  destruct Hmissing as [Hno | Hno].
  - exact (Hno _ Hgroup).
  - exact (Hno items Hne Hitems).
Qed.

Lemma submit_rejects_without_group_or_members_witness :
  let r := run internalError (submitHandler (Some Cases.no_members))
             MemStorage.empty in
  status (answer r) = 400 /\ calls r = [] /\ store r = MemStorage.empty.
Proof.
  apply (submit_rejects_without_group_or_members MemStorage.empty
           (Some Cases.no_members)).
  right. intros items _. vm_compute. discriminate.
Defined.

(** X9. The submit handler answers 400 exactly when the candidate fails
    validation, and then makes no storage call; otherwise it makes exactly
    one call, [createProposal] of the normalised validated payload. A 201
    carries what the storage assigned, a 500 means that call rejected, and no
    other status occurs. *)
Theorem submitHandler_writes_once_when_valid
    {S : Type} `{IStorage S} (s : S) (body : option Json) :
  let candidate := normalizedBodyOf (rawBodyOf body) in
  let r := run internalError (submitHandler body) s in
  (status (answer r) = 400 <-> proposalPayloadSchema candidate = None)
  /\ (status (answer r) = 400 -> calls r = [] /\ store r = s)
  /\ (forall data, proposalPayloadSchema candidate = Some data ->
        calls r = [CallCreateProposal (normalizeProposalPayload data)]
        /\ store r = snd (createProposal (normalizeProposalPayload data) s))
  /\ (status (answer r) = 201 ->
      exists data proposal,
        proposalPayloadSchema candidate = Some data
        /\ fst (createProposal (normalizeProposalPayload data) s)
           = Returned proposal
        /\ reply (answer r)
           = ProposalCreated (proposalId proposal) (stage proposal)
               (submittedAt proposal))
  /\ (status (answer r) = 500 ->
      exists data,
        proposalPayloadSchema candidate = Some data
        /\ fst (createProposal (normalizeProposalPayload data) s) = Threw)
  /\ (status (answer r) = 201 \/ status (answer r) = 400
      \/ status (answer r) = 500).
Proof.
  cbv zeta. unfold submitHandler.
  destruct (proposalPayloadSchema (normalizedBodyOf (rawBodyOf body)))
    as [data|] eqn:Hparse.
  - cbn [run].
    destruct (createProposal (normalizeProposalPayload data) s)
      as [[proposal|] s1] eqn:Hcreate; cbn.
    + split; [split; discriminate|]. split; [discriminate|].
      split; [intros ? [= <-]; rewrite Hcreate; auto|].
      split; [intros _; exists data, proposal; rewrite Hcreate; auto|].
      split; [discriminate | auto].
    + split; [split; discriminate|]. split; [discriminate|].
      split; [intros ? [= <-]; rewrite Hcreate; auto|].
      split; [discriminate|].
      split; [intros _; exists data; rewrite Hcreate; auto | auto].
  - cbn. split; [split; auto|]. split; [auto|].
    split; [discriminate|]. split; [discriminate|].
    split; [discriminate | auto].
Qed.

(** Facts of one run are about the proposal that was fetched. *)
Ltac same_proposal :=
  repeat match goal with
    | Ha : ?x = Returned _, Hb : ?x = Threw |- _ =>
        rewrite Ha in Hb; discriminate Hb
    | Ha : ?x = Returned (Some _), Hb : ?x = Returned None |- _ =>
        rewrite Ha in Hb; discriminate Hb
    | Ha : ?x = Returned (Some ?p), Hb : ?x = Returned (Some ?q) |- _ =>
        rewrite Ha in Hb; injection Hb as <-
    end.

(** X11. A proposal at CHANGES_REQUESTED accepts no decision: the schema
    refuses that claimed stage and the stale-stage guard refuses the two it
    admits, so every request is answered 400 and nothing is written. *)
Theorem changes_requested_accepts_no_decision
    {S : Type} `{IStorage S} (s : S) (proposalId : string)
    (body : option Json) (proposal : ProposalDetail.t) :
  getProposalDetail proposalId s = Returned (Some proposal) ->
  ProposalDetail.stage proposal = CHANGES_REQUESTED ->
  let r := run internalError (decisionHandler proposalId body) s in
  status (answer r) = 400
  /\ (reply (answer r) = Error "Invalid decision payload"
      \/ exists claimed,
           (claimed = DOC_REVIEW \/ claimed = RISK_REVIEW)
           /\ reply (answer r) = StageMismatch CHANGES_REQUESTED claimed)
  /\ Forall (fun c => is_write c = false) (calls r)
  /\ store r = s.
Proof.
  intros Hget Hstage. cbv zeta.
  destruct (decisionHandler_run proposalId body s)
    as [Hparse | d Hparse Hthrew | d Hparse Hnone
        | d p Hparse Hsome Hterminal | d p Hparse Hsome Hterminal Hstale
        | d p s1 Hparse Hsome Hterminal Hsame Hrecord
        | d p decision s1 stage' s2 Hparse Hsome Hterminal Hsame
        | d p decision s1 stage' u s2 Hparse Hsome Hterminal Hsame];
    same_proposal; cbn;
    try (apply insertDecisionSchema_stage in Hparse as [_ Hadmitted]).
  - repeat split; auto.
  - rewrite Hstage in Hterminal. discriminate.
  - rewrite Hstage. repeat split; eauto using read_only_calls.
  - rewrite Hstage in Hsame. destruct Hadmitted; congruence.
  - rewrite Hstage in Hsame. destruct Hadmitted; congruence.
  - rewrite Hstage in Hsame. destruct Hadmitted; congruence.
Qed.

Lemma changes_requested_accepts_no_decision_witness :
  let r := run internalError
             (decisionHandler "P0" (Sample.decision_body "DOC_REVIEW" "REJECT"))
             (Sample.store_at CHANGES_REQUESTED) in
  status (answer r) = 400
  /\ (reply (answer r) = Error "Invalid decision payload"
      \/ exists claimed,
           (claimed = DOC_REVIEW \/ claimed = RISK_REVIEW)
           /\ reply (answer r) = StageMismatch CHANGES_REQUESTED claimed)
  /\ Forall (fun c => is_write c = false) (calls r)
  /\ store r = Sample.store_at CHANGES_REQUESTED.
Proof.
  apply (changes_requested_accepts_no_decision
           (Sample.store_at CHANGES_REQUESTED) "P0"
           (Sample.decision_body "DOC_REVIEW" "REJECT")
           (Sample.detail_at CHANGES_REQUESTED)).
  - vm_compute. reflexivity.
  - reflexivity.
Defined.

(** X12. For a proposal the storage does not have, a well-formed decision is
    answered 404 and a malformed one 400 (validation comes first); neither
    writes anything. *)
Theorem unknown_proposal_is_not_found
    {S : Type} `{IStorage S} (s : S) (proposalId : string)
    (body : option Json) :
  getProposalDetail proposalId s = Returned None ->
  let r := run internalError (decisionHandler proposalId body) s in
  (status (answer r) = 404 <-> is_Some (Zod.required insertDecisionSchema body))
  /\ (status (answer r) = 400 <-> Zod.required insertDecisionSchema body = None)
  /\ Forall (fun c => is_write c = false) (calls r)
  /\ store r = s.
Proof.
  intros Hget. cbv zeta. unfold decisionHandler.
  destruct (Zod.required insertDecisionSchema body) as [d|].
  - cbn [decideValidated run]. rewrite Hget. cbn.
    repeat split; eauto using read_only_calls; discriminate.
  - cbn. repeat split; auto; try discriminate. now intros [? ?].
Qed.

Lemma unknown_proposal_is_not_found_witness :
  let r := run internalError
             (decisionHandler "P9" (Sample.decision_body "DOC_REVIEW" "APPROVE"))
             MemStorage.empty in
  (status (answer r) = 404
   <-> is_Some (Zod.required insertDecisionSchema
                  (Sample.decision_body "DOC_REVIEW" "APPROVE")))
  /\ (status (answer r) = 400
      <-> Zod.required insertDecisionSchema
            (Sample.decision_body "DOC_REVIEW" "APPROVE") = None)
  /\ Forall (fun c => is_write c = false) (calls r)
  /\ store r = MemStorage.empty.
Proof.
  apply (unknown_proposal_is_not_found MemStorage.empty "P9"
           (Sample.decision_body "DOC_REVIEW" "APPROVE")).
  vm_compute. reflexivity.
Defined.

(** X13. A decision answered 201 was validated, claimed the stage the
    proposal was at, and moved it as the transition table says, to another
    stage that is never DOC_REVIEW; the answer names the created decision and
    both stages, and the storage saw the lookup, the creation and the stage
    update, in this order. *)
Theorem accepted_decision_moves_forward
    {S : Type} `{IStorage S} (s : S) (proposalId : string)
    (body : option Json) :
  let r := run internalError (decisionHandler proposalId body) s in
  status (answer r) = 201 ->
  exists d proposal decision stage',
    Zod.required insertDecisionSchema body = Some d
    /\ getProposalDetail proposalId s = Returned (Some proposal)
    /\ ProposalDetail.stage proposal = InsertDecision.stage d
    /\ Spec.transition (ProposalDetail.stage proposal)
         (InsertDecision.decision d) = Some stage'
    /\ stage' <> ProposalDetail.stage proposal
    /\ stage' <> DOC_REVIEW
    /\ fst (createDecision proposalId d s) = Returned decision
    /\ reply (answer r)
       = DecisionCreated (Decision.decisionId decision)
           (ProposalDetail.stage proposal) stage' (InsertDecision.decision d)
    /\ calls r = [CallGetProposalDetail proposalId;
                  CallCreateDecision proposalId d;
                  CallUpdateProposalStage proposalId stage'].
Proof.
  cbv zeta. intros Hstatus.
  destruct (decisionHandler_run proposalId body s)
    as [Hparse | d Hparse Hthrew | d Hparse Hnone
        | d p Hparse Hsome Hterminal | d p Hparse Hsome Hterminal Hstale
        | d p s1 Hparse Hsome Hterminal Hsame Hrecord
        | d p decision s1 stage' s2 Hparse Hsome Hterminal Hsame Hrecord Hnew
        | d p decision s1 stage' u s2 Hparse Hsome Hterminal Hsame Hrecord
            Hnew Hupdate];
    cbn in Hstatus; try discriminate.
  exists d, p, decision, stage'. cbn.
  rewrite (newStage_validated _ _ Hparse) in Hnew.
  apply insertDecisionSchema_stage in Hparse as Hfacts.
  destruct Hfacts as [_ Hadmitted]. rewrite Hrecord.
  repeat split; auto.
  - rewrite Hsame.
    destruct d as [claimed kind ? ? ?]; cbn in *.
    destruct Hadmitted as [-> | ->]; destruct kind; cbn in *; congruence.
  - rewrite Hsame.
    destruct d as [claimed kind ? ? ?]; cbn in *.
    destruct Hadmitted as [-> | ->]; destruct kind; cbn in *;
      injection Hnew as <-; discriminate.
  - destruct d as [claimed kind ? ? ?]; cbn in *.
    destruct Hadmitted as [-> | ->]; destruct kind; cbn in *;
      injection Hnew as <-; discriminate.
Qed.

Lemma accepted_decision_moves_forward_witness :
  let r := run internalError
             (decisionHandler "P0" (Sample.decision_body "DOC_REVIEW" "APPROVE"))
             (Sample.store_at DOC_REVIEW) in
  exists d proposal decision stage',
    Zod.required insertDecisionSchema
      (Sample.decision_body "DOC_REVIEW" "APPROVE") = Some d
    /\ getProposalDetail "P0" (Sample.store_at DOC_REVIEW)
       = Returned (Some proposal)
    /\ ProposalDetail.stage proposal = InsertDecision.stage d
    /\ Spec.transition (ProposalDetail.stage proposal)
         (InsertDecision.decision d) = Some stage'
    /\ stage' <> ProposalDetail.stage proposal
    /\ stage' <> DOC_REVIEW
    /\ fst (createDecision "P0" d (Sample.store_at DOC_REVIEW))
       = Returned decision
    /\ reply (answer r)
       = DecisionCreated (Decision.decisionId decision)
           (ProposalDetail.stage proposal) stage' (InsertDecision.decision d)
    /\ calls r = [CallGetProposalDetail "P0";
                  CallCreateDecision "P0" d;
                  CallUpdateProposalStage "P0" stage'].
Proof.
  apply (accepted_decision_moves_forward (Sample.store_at DOC_REVIEW) "P0"
           (Sample.decision_body "DOC_REVIEW" "APPROVE")).
  vm_compute. reflexivity.
Defined.

(** X14. The decision handler writes a stage only for the proposal it was
    asked about, only after creating the decision, and only as the table
    says: RISK_REVIEW after an approval at DOC_REVIEW, APPROVED after an
    approval at RISK_REVIEW, REJECTED and CHANGES_REQUESTED after the
    decisions of that name, and never DOC_REVIEW. *)
Theorem stage_is_written_by_the_table_only
    {S : Type} `{IStorage S} (s : S) (proposalId : string)
    (body : option Json) (target : string) (stage' : ProposalStage) :
  In (CallUpdateProposalStage target stage')
    (calls (run internalError (decisionHandler proposalId body) s)) ->
  target = proposalId
  /\ exists d proposal,
       Zod.required insertDecisionSchema body = Some d
       /\ getProposalDetail proposalId s = Returned (Some proposal)
       /\ ProposalDetail.stage proposal = InsertDecision.stage d
       /\ In (CallCreateDecision proposalId d)
            (calls (run internalError (decisionHandler proposalId body) s))
       /\ stage' <> DOC_REVIEW
       /\ (stage' = RISK_REVIEW ->
           ProposalDetail.stage proposal = DOC_REVIEW
           /\ InsertDecision.decision d = APPROVE)
       /\ (stage' = APPROVED ->
           ProposalDetail.stage proposal = RISK_REVIEW
           /\ InsertDecision.decision d = APPROVE)
       /\ (stage' = REJECTED -> InsertDecision.decision d = REJECT)
       /\ (stage' = CHANGES_REQUESTED ->
           InsertDecision.decision d = REQUEST_CHANGES).
Proof.
  intros Hcall.
  assert (Htable : forall d p,
            Zod.required insertDecisionSchema body = Some d ->
            ProposalDetail.stage p = InsertDecision.stage d ->
            newStage d = inr stage' ->
            stage' <> DOC_REVIEW
            /\ (stage' = RISK_REVIEW ->
                ProposalDetail.stage p = DOC_REVIEW
                /\ InsertDecision.decision d = APPROVE)
            /\ (stage' = APPROVED ->
                ProposalDetail.stage p = RISK_REVIEW
                /\ InsertDecision.decision d = APPROVE)
            /\ (stage' = REJECTED -> InsertDecision.decision d = REJECT)
            /\ (stage' = CHANGES_REQUESTED ->
                InsertDecision.decision d = REQUEST_CHANGES)).
  { intros d p Hparse Hsame Hnew.
    apply insertDecisionSchema_stage in Hparse as [_ Hadmitted].
    rewrite Hsame. destruct d as [claimed kind ? ? ?]; cbn in *.
    destruct Hadmitted as [-> | ->]; destruct kind; cbn in Hnew;
      injection Hnew as <-; repeat split; congruence. }
  destruct (decisionHandler_run proposalId body s)
    as [Hparse | d Hparse Hthrew | d Hparse Hnone
        | d p Hparse Hsome Hterminal | d p Hparse Hsome Hterminal Hstale
        | d p s1 Hparse Hsome Hterminal Hsame Hrecord
        | d p decision s1 st s2 Hparse Hsome Hterminal Hsame Hrecord Hnew
        | d p decision s1 st u s2 Hparse Hsome Hterminal Hsame Hrecord
            Hnew Hupdate];
    cbn in Hcall; try (intuition discriminate).
  - destruct Hcall as [Hc | [Hc | [Hc | []]]]; try discriminate.
    injection Hc as <- <-. split; [reflexivity|].
    exists d, p. split; [exact Hparse|]. split; [exact Hsome|].
    split; [exact Hsame|]. split; [cbn; auto|]. now apply (Htable d p).
  - destruct Hcall as [Hc | [Hc | [Hc | []]]]; try discriminate.
    injection Hc as <- <-. split; [reflexivity|].
    exists d, p. split; [exact Hparse|]. split; [exact Hsome|].
    split; [exact Hsame|]. split; [cbn; auto|]. now apply (Htable d p).
Qed.

Lemma stage_is_written_by_the_table_only_witness :
  "P0" = "P0"
  /\ exists d proposal,
       Zod.required insertDecisionSchema
         (Sample.decision_body "RISK_REVIEW" "APPROVE") = Some d
       /\ getProposalDetail "P0" (Sample.store_at RISK_REVIEW)
          = Returned (Some proposal)
       /\ ProposalDetail.stage proposal = InsertDecision.stage d
       /\ In (CallCreateDecision "P0" d)
            (calls (run internalError
                      (decisionHandler "P0"
                         (Sample.decision_body "RISK_REVIEW" "APPROVE"))
                      (Sample.store_at RISK_REVIEW)))
       /\ APPROVED <> DOC_REVIEW
       /\ (APPROVED = RISK_REVIEW ->
           ProposalDetail.stage proposal = DOC_REVIEW
           /\ InsertDecision.decision d = APPROVE)
       /\ (APPROVED = APPROVED ->
           ProposalDetail.stage proposal = RISK_REVIEW
           /\ InsertDecision.decision d = APPROVE)
       /\ (APPROVED = REJECTED -> InsertDecision.decision d = REJECT)
       /\ (APPROVED = CHANGES_REQUESTED ->
           InsertDecision.decision d = REQUEST_CHANGES).
Proof.
  apply (stage_is_written_by_the_table_only (Sample.store_at RISK_REVIEW)
           "P0" (Sample.decision_body "RISK_REVIEW" "APPROVE") "P0" APPROVED).
  vm_compute. right. right. left. reflexivity.
Defined.

(** X15. The decision handler answers 201, 400, 404 or 500 only, and 500
    only when a storage call rejected: the lookup, the creation of the
    decision, or the stage update that follows it. *)
Theorem decision_fails_only_when_storage_rejects
    {S : Type} `{IStorage S} (s : S) (proposalId : string)
    (body : option Json) :
  let r := run internalError (decisionHandler proposalId body) s in
  (status (answer r) = 201 \/ status (answer r) = 400
   \/ status (answer r) = 404 \/ status (answer r) = 500)
  /\ (status (answer r) = 500 ->
      getProposalDetail proposalId s = Threw
      \/ (exists d, fst (createDecision proposalId d s) = Threw)
      \/ (exists d stage',
            fst (updateProposalStage proposalId stage'
                   (snd (createDecision proposalId d s))) = Threw)).
Proof.
  cbv zeta.
  destruct (decisionHandler_run proposalId body s)
    as [Hparse | d Hparse Hthrew | d Hparse Hnone
        | d p Hparse Hsome Hterminal | d p Hparse Hsome Hterminal Hstale
        | d p s1 Hparse Hsome Hterminal Hsame Hrecord
        | d p decision s1 st s2 Hparse Hsome Hterminal Hsame Hrecord Hnew
            Hupdate
        | d p decision s1 st u s2 Hparse Hsome Hterminal Hsame Hrecord
            Hnew Hupdate];
    cbn; (split; [auto 6|]); try discriminate; intros _.
  - now left.
  - right. left. exists d. now rewrite Hrecord.
  - right. right. exists d, st. rewrite Hrecord. cbn. now rewrite Hupdate.
Qed.

Import Listing.

(** X16. The Gate list route queries the storage for a stage exactly when the
    [stage] parameter is a string that names one of the five stages, and
    answers the count and the rows it got; any other parameter (absent,
    empty, unknown, array or object) is answered 400 with the five valid
    stages and no query. *)
Theorem gateProposals_validates_stage
    {S : Type} `{IStorage S} `{IListing S} (s : S)
    (stage : option QueryValue) :
  (forall st, stage = Some (QString (stage_name st)) ->
     ask failure (gateProposals stage) s
     = match getProposalsByStage st s with
       | Returned proposals =>
           ((200, Staged (stage_name st) (length proposals) proposals),
            [ReadProposalsByStage st])
       | Threw => (failure, [ReadProposalsByStage st])
       end)
  /\ ((forall st, stage <> Some (QString (stage_name st))) ->
      ask failure (gateProposals stage) s
      = ((400, InvalidStage "Invalid or missing stage parameter"
                 [DOC_REVIEW; RISK_REVIEW; APPROVED; REJECTED;
                  CHANGES_REQUESTED]),
         [])).
Proof.
  split.
  - intros st ->. unfold gateProposals.
    assert (find (fun o => String.eqb (stage_name st) (stage_name o))
              validStages = Some st) as -> by now destruct st.
    cbn [ask]. now destruct (getProposalsByStage st s).
  - intros Hnone. unfold gateProposals.
    destruct stage as [[name|items|props]|]; try reflexivity.
    destruct (find _ validStages) as [st|] eqn:Hfind; [|reflexivity].
    apply find_some in Hfind as [_ Hname]. apply String.eqb_eq in Hname.
    subst name. now destruct (Hnone st).
Qed.

(** X17. The Hunt polling route queries the storage only when the [status]
    parameter reads "CHANGES_REQUESTED", and then for that stage; for any
    other status it reads it answers an empty list with count 0 and makes no
    query; when the parameter cannot be read as a string (an object with a
    [toString] property of its own, alone or inside an array) it answers 500
    and makes no query. A one-element array reads as its element and an
    absent parameter as the empty string. *)
Theorem huntProposals_polls_changes_requested_only
    {S : Type} `{IStorage S} `{IListing S} (s : S)
    (status : option QueryValue) :
  (string_or_empty status = Some "CHANGES_REQUESTED" ->
   ask failure (huntProposals status) s
   = match getProposalsByStage CHANGES_REQUESTED s with
     | Returned proposals =>
         ((200, Polled "CHANGES_REQUESTED" (length proposals) proposals),
          [ReadProposalsByStage CHANGES_REQUESTED])
     | Threw => (failure, [ReadProposalsByStage CHANGES_REQUESTED])
     end)
  /\ (forall other,
        string_or_empty status = Some other ->
        other <> "CHANGES_REQUESTED" ->
        ask failure (huntProposals status) s
        = ((200, Polled other 0 []), []))
  /\ (string_or_empty status = None ->
      ask failure (huntProposals status) s = (failure, []))
  /\ (forall props,
        string_or_empty (Some (QObject props)) = None
        <-> exists v, In ("toString", v) props)
  /\ (forall v, string_or_empty (Some (QArray [v])) = to_string v)
  /\ string_or_empty None = Some "".
Proof.
  unfold huntProposals.
  split; [|split; [|split; [|split; [|split]]]].
  - intros ->. cbn [String.eqb Ascii.eqb Bool.eqb ask].
    now destruct (getProposalsByStage CHANGES_REQUESTED s).
  - intros other -> Hother. apply String.eqb_neq in Hother.
    now rewrite Hother.
  - now intros ->.
  - intros props. cbn.
    destruct (find (fun kv => String.eqb (fst kv) "toString") props)
      as [[k v]|] eqn:Hfind.
    + apply find_some in Hfind as [Hin Hk]. cbn in Hk.
      apply String.eqb_eq in Hk. subst k. split; eauto.
    + split; [discriminate|]. intros [v Hin].
      apply (find_none _ _ Hfind) in Hin. discriminate.
  - intros v. cbn. now destruct (to_string v).
  - reflexivity.
Qed.
